(** * HDInsight custom pollers: the Poll operations and the polling driver

    The two pollers of [internal/services/hdinsight/custompollers]
    ([DisableAzureMonitorPoller] and [DisableMonitoringPoller]) are embedded
    from their Go source.  Each [Poll] is a pointer-receiver method that
    issues one status query and classifies the reply; it is written here in
    state-passing style: it takes the receiver and returns the receiver as
    the method leaves it, next to Go's pair of a [PollResult] pointer and an [error] (a
    pair of options, [None] standing for [nil]).

    The types of the SDK ([extensions.ExtensionsClient],
    [extensions.ClusterId], [http.Response], [odata.OData],
    [context.Context]) are declared outside the repository's files; they are
    parameters of the development. *)

From Stdlib Require Import String Ascii List ZArith Bool Lia.
Import ListNotations.
Open Scope string_scope.

Set Implicit Arguments.

(** ** time *)

(** [time.Duration] counts nanoseconds. *)
Definition Duration := Z.
Definition Second : Duration := 1000000000%Z.

(** ** fmt *)

(** [fmt.Sprintf] for the two verbs the pollers use, [%s] and [%+v], over
    operands that are already rendered ([String()] of a [Stringer],
    [Error()] of an [error]).  A verb without operand prints Go's marker.
    Every call embedded below passes exactly the operands its format
    consumes. *)
Fixpoint Sprintf (format : string) (args : list string) : string :=
  match format with
  | EmptyString => EmptyString
  | String "%" (String "s" rest) =>
      match args with
      | a :: args' => a ++ Sprintf rest args'
      | [] => "%!s(MISSING)" ++ Sprintf rest []
      end
  | String "%" (String "+" (String "v" rest)) =>
      match args with
      | a :: args' => a ++ Sprintf rest args'
      | [] => "%!v(MISSING)" ++ Sprintf rest []
      end
  | String c rest => String c (Sprintf rest args)
  end.

(** ** pollers.PollingStatus *)

(** Modelled from the spec: the declaration of [pollers.PollingStatus] is
    not among the repository's files.  The spec gives the Poll Result "a
    tri-state status (InProgress, Succeeded, Failed)"; the pollers name the
    first two as [pollers.PollingStatusInProgress] and
    [pollers.PollingStatusSucceeded]. *)
Inductive PollingStatus : Type :=
| PollingStatusInProgress
| PollingStatusSucceeded
| PollingStatusFailed.

Definition PollingStatus_eqb (a b : PollingStatus) : bool :=
  match a, b with
  | PollingStatusInProgress, PollingStatusInProgress => true
  | PollingStatusSucceeded, PollingStatusSucceeded => true
  | PollingStatusFailed, PollingStatusFailed => true
  | _, _ => false
  end.

Section SDK.

Context {ExtensionsClient ClusterId context_Context http_Response odata_OData : Type}.

(** [func (id ClusterId) String() string], what [%s] prints. *)
Variable ClusterId_String : ClusterId -> string.

(** ** error *)

(** Go's [error] values as the pollers meet and build them: an error made
    elsewhere, known by its message, and the two shapes of [fmt.Errorf]
    call in the pollers, [fmt.Errorf(format, id)] and
    [fmt.Errorf(format, id, err)].  The constructors keep the operands;
    [Error] gives the message. *)
Inductive error : Type :=
| errorString (s : string)
| Errorf1 (format : string) (id : ClusterId)
| Errorf2 (format : string) (id : ClusterId) (err : error).

Fixpoint Error (e : error) : string :=
  match e with
  | errorString s => s
  | Errorf1 format id => Sprintf format [ClusterId_String id]
  | Errorf2 format id err => Sprintf format [ClusterId_String id; Error err]
  end.

(** ** extensions: the status query *)

(** [extensions.ClusterMonitoringResponse], with the fields the repository
    reads: [ClusterMonitoringEnabled] in the pollers, [WorkspaceId] in
    [flattenHDInsightMonitoring]; both are pointers. *)
Record ClusterMonitoringResponse : Type := {
  ClusterMonitoringEnabled : option bool;
  WorkspaceId : option string
}.

(** What [GetMonitoringStatus] returns next to its error, with the three
    fields the pollers read. *)
Record GetMonitoringStatusOperationResponse : Type := {
  HttpResponse : option http_Response;
  OData : option odata_OData;
  Model : option ClusterMonitoringResponse
}.

(** What the remote side answers at one moment.  The one operation the
    pollers call is [client.GetMonitoringStatus(ctx, id)], which returns
    the response and an error. *)
Record Transport : Type := {
  GetMonitoringStatus :
    ExtensionsClient -> context_Context -> ClusterId ->
    GetMonitoringStatusOperationResponse * option error
}.

(** ** client.Response and pollers.PollResult, as the pollers fill them *)

Record client_Response : Type := {
  Response_OData : option odata_OData;
  Response_Response : option http_Response
}.

Record PollResult : Type := {
  PollResult_HttpResponse : option client_Response;
  PollInterval : Duration;
  Status : PollingStatus
}.

(** ** pollers.PollerType *)

(** The interface both pollers are asserted to implement
    ([var _ pollers.PollerType = &DisableMonitoringPoller{}]): one method
    [Poll(ctx)], returning a [PollResult] pointer and an [error].  The
    receiver is threaded. *)
Class PollerType (P : Type) : Type := {
  Poll : P -> context_Context -> Transport -> P * (option PollResult * option error)
}.

End SDK.

Arguments error : clear implicits.
Arguments Transport : clear implicits.
Arguments PollResult : clear implicits.
Arguments client_Response : clear implicits.
Arguments GetMonitoringStatusOperationResponse : clear implicits.
Arguments PollerType : clear implicits.

(** ** DisableAzureMonitorPoller *)

Module DisableAzureMonitorPoller.
Section Def.

Context {ExtensionsClient ClusterId context_Context http_Response odata_OData : Type}.

Record t : Type := {
  client : ExtensionsClient;
  clusterId : ClusterId
}.

Definition Poll (p : t) (ctx : context_Context)
    (tr : Transport ExtensionsClient ClusterId context_Context http_Response odata_OData)
  : t * (option (PollResult http_Response odata_OData) * option (error ClusterId)) :=
  let '(resp, err) := GetMonitoringStatus tr (client p) ctx (clusterId p) in
  match err with
  | Some err =>
      (p, (None, Some (Errorf2 "retrieving Azure Monitor Status for %s: %+v" (clusterId p) err)))
  | None =>
      match Model resp with
      | None =>
          (p, (None, Some (Errorf1 "retrieving Azure Monitor Status for %s: `model` was nil" (clusterId p))))
      | Some model =>
          match ClusterMonitoringEnabled model with
          | None =>
              (p, (None, Some (Errorf1 "retrieving Azure Monitor Status for %s: `model.ClusterMonitoringEnabled` was nil" (clusterId p))))
          | Some enabled =>
              let status := PollingStatusInProgress in
              let status := if negb enabled then PollingStatusSucceeded else status in
              (p, (Some {| PollResult_HttpResponse :=
                             Some {| Response_OData := OData resp;
                                     Response_Response := HttpResponse resp |};
                           PollInterval := (10 * Second)%Z;
                           Status := status |},
                   None))
          end
      end
  end.

End Def.
Arguments t : clear implicits.
End DisableAzureMonitorPoller.

Definition NewDisableAzureMonitorPoller {ExtensionsClient ClusterId : Type}
    (client : ExtensionsClient) (clusterId : ClusterId)
  : DisableAzureMonitorPoller.t ExtensionsClient ClusterId :=
  {| DisableAzureMonitorPoller.client := client;
     DisableAzureMonitorPoller.clusterId := clusterId |}.

(** ** DisableMonitoringPoller *)

Module DisableMonitoringPoller.
Section Def.

Context {ExtensionsClient ClusterId context_Context http_Response odata_OData : Type}.

Record t : Type := {
  client : ExtensionsClient;
  clusterId : ClusterId
}.

Definition Poll (p : t) (ctx : context_Context)
    (tr : Transport ExtensionsClient ClusterId context_Context http_Response odata_OData)
  : t * (option (PollResult http_Response odata_OData) * option (error ClusterId)) :=
  let '(resp, err) := GetMonitoringStatus tr (client p) ctx (clusterId p) in
  match err with
  | Some err =>
      (p, (None, Some (Errorf2 "retrieving Monitoring Status for %s: %+v" (clusterId p) err)))
  | None =>
      match Model resp with
      | None =>
          (p, (None, Some (Errorf1 "retrieving Monitoring Status for %s: `model` was nil" (clusterId p))))
      | Some model =>
          match ClusterMonitoringEnabled model with
          | None =>
              (p, (None, Some (Errorf1 "retrieving Monitoring Status for %s: `model.ClusterMonitoringEnabled` was nil" (clusterId p))))
          | Some enabled =>
              let status := PollingStatusInProgress in
              let status := if negb enabled then PollingStatusSucceeded else status in
              (p, (Some {| PollResult_HttpResponse :=
                             Some {| Response_OData := OData resp;
                                     Response_Response := HttpResponse resp |};
                           PollInterval := (10 * Second)%Z;
                           Status := status |},
                   None))
          end
      end
  end.

End Def.
Arguments t : clear implicits.
End DisableMonitoringPoller.

Definition NewDisableMonitoringPoller {ExtensionsClient ClusterId : Type}
    (client : ExtensionsClient) (clusterId : ClusterId)
  : DisableMonitoringPoller.t ExtensionsClient ClusterId :=
  {| DisableMonitoringPoller.client := client;
     DisableMonitoringPoller.clusterId := clusterId |}.

Section Instances.

Context {ExtensionsClient ClusterId context_Context http_Response odata_OData : Type}.

#[export] Instance DisableAzureMonitorPoller_PollerType :
  PollerType ExtensionsClient ClusterId context_Context http_Response odata_OData
             (DisableAzureMonitorPoller.t ExtensionsClient ClusterId) :=
  {| Poll := DisableAzureMonitorPoller.Poll |}.

#[export] Instance DisableMonitoringPoller_PollerType :
  PollerType ExtensionsClient ClusterId context_Context http_Response odata_OData
             (DisableMonitoringPoller.t ExtensionsClient ClusterId) :=
  {| Poll := DisableMonitoringPoller.Poll |}.

End Instances.

(** ** Repeated polls *)

Section Repeated.

Context {ExtensionsClient ClusterId context_Context http_Response odata_OData : Type}.
Context {P : Type}
        {PT : PollerType ExtensionsClient ClusterId context_Context http_Response odata_OData P}.

(** [n] calls of [Poll] in a row while the remote side keeps answering as
    [tr] does: the receiver each call leaves is the receiver of the next;
    the results are collected in call order. *)
Fixpoint PollTimes (n : nat) (p : P) (ctx : context_Context)
    (tr : Transport ExtensionsClient ClusterId context_Context http_Response odata_OData)
  : P * list (option (PollResult http_Response odata_OData) * option (error ClusterId)) :=
  match n with
  | O => (p, [])
  | S n' =>
      let '(p1, out) := Poll p ctx tr in
      let '(p2, outs) := PollTimes n' p1 ctx tr in
      (p2, out :: outs)
  end.

(** The polls of [trs], issued in turn, all return a result with status
    [InProgress]: the receiver after the last of them, else [None]. *)
Fixpoint inProgressRun (p : P) (ctx : context_Context)
    (trs : list (Transport ExtensionsClient ClusterId context_Context http_Response odata_OData))
  : option P :=
  match trs with
  | [] => Some p
  | tr :: trs' =>
      match Poll p ctx tr with
      | (p1, (Some r, None)) =>
          if PollingStatus_eqb (Status r) PollingStatusInProgress
          then inProgressRun p1 ctx trs'
          else None
      | _ => None
      end
  end.

End Repeated.

(** ** The Poller Driver *)

Section Driver.

Context {ExtensionsClient ClusterId context_Context http_Response odata_OData : Type}.
Context {P : Type}
        {PT : PollerType ExtensionsClient ClusterId context_Context http_Response odata_OData P}.

Let transport := Transport ExtensionsClient ClusterId context_Context http_Response odata_OData.

(** Modelled from the spec: [pollers.NewPoller] and [PollUntilDone] are
    called by [disableHDInsightMonitoring] and its siblings, their code is
    not among the repository's files.  The driver is "constructed from a
    Poll Operation, an initial poll interval, and a maximum number of
    tolerated consecutive transport failures before giving up"; the
    operands are in the order of the calls
    [pollers.NewPoller(pollType, 10*time.Second, ...)]. *)
Record Poller : Type := NewPoller {
  operation : P;
  initialInterval : Duration;
  allowance : Z
}.

(** Modelled from the spec: the errors [PollUntilDone] returns, from the
    spec's error taxonomy.  A QueryError is retried and surfaces only
    inside the [TimeoutExceededError] that wraps the last one; a
    [MalformedResponseError] carries the error [Poll] returned, if any.
    The spec makes the status [Failed] terminal with an error and does not
    name that error: [FailedStatusError] here. *)
Inductive DriverError : Type :=
| MalformedResponseError (detail : option (error ClusterId))
| TimeoutExceededError (last : error ClusterId)
| CancellationError
| FailedStatusError.

(** Modelled from the spec: how the driver tells a QueryError ("the
    status-fetch request itself failed") from a MalformedResponseError
    ("missing required fields") is not said.  Here an error of [Poll] that
    carries an underlying error, or is itself an error made elsewhere,
    reports a failed query; one built from the identifier alone reports a
    missing field. *)
Definition isQueryError (e : error ClusterId) : bool :=
  match e with
  | errorString _ => true
  | Errorf1 _ _ => false
  | Errorf2 _ _ _ => true
  end.

(** Modelled from the spec: "States: Polling (initial), Succeeded
    (terminal, success), Failed (terminal, error), Cancelled (terminal,
    caller-initiated abort)." *)
Inductive DriverPhase : Type :=
| Polling
| Succeeded
| Failed (e : DriverError)
| Cancelled.

(** Modelled from the spec: the Poller Driver State, "current backoff/poll
    interval, a running count of consecutive transport-level failures",
    with the Poll Operation as its last call left it and the number of
    polls issued so far.  The deadline is not a field: the moment the
    context is cancelled is an event of the run (below). *)
Record DriverState : Type := {
  phase : DriverPhase;
  op : P;
  interval : Duration;
  failures : Z;
  polls : nat
}.

(** Modelled from the spec: what the driver meets each time round its loop
    ("on cancellation signalled during wait or immediately before the next
    poll", else one invocation of the Poll Operation): the context is found
    cancelled (during the wait or immediately before the next poll), or it
    is live, the poll is issued and the remote side answers as [tr]. *)
Inductive Event : Type :=
| Cancel
| Answer (tr : transport).

(** Modelled from the spec: the initial state, [Polling] at the initial
    interval with no failure counted and no poll issued. *)
Definition start (d : Poller) : DriverState :=
  {| phase := Polling;
     op := operation d;
     interval := initialInterval d;
     failures := 0%Z;
     polls := 0 |}.

(** Modelled from the spec: the transitions of section 4.2.  From
    [Polling] the Poll Operation is invoked once.  A result resets the
    failure count; [Succeeded] and [Failed] are terminal, [InProgress]
    waits for the suggested interval, or for the initial one when the
    result suggests none, and stays in [Polling].  An error that reports a
    failed query increments the count and is fatal once the count exceeds
    the allowance; any other error, and a reply with neither result nor
    error, is a malformed response, fatal at once.  Cancellation is
    terminal and issues no poll. *)
Definition step (d : Poller) (ctx : context_Context) (s : DriverState) (ev : Event)
  : DriverState :=
  match phase s with
  | Polling =>
      match ev with
      | Cancel =>
          {| phase := Cancelled; op := op s; interval := interval s;
             failures := failures s; polls := polls s |}
      | Answer tr =>
          let '(p1, out) := Poll (op s) ctx tr in
          let n := S (polls s) in
          match out with
          | (_, Some e) =>
              if isQueryError e then
                let k := (failures s + 1)%Z in
                if (allowance d <? k)%Z then
                  {| phase := Failed (TimeoutExceededError e); op := p1;
                     interval := interval s; failures := k; polls := n |}
                else
                  {| phase := Polling; op := p1;
                     interval := interval s; failures := k; polls := n |}
              else
                {| phase := Failed (MalformedResponseError (Some e)); op := p1;
                   interval := interval s; failures := failures s; polls := n |}
          | (Some r, None) =>
              match Status r with
              | PollingStatusSucceeded =>
                  {| phase := Succeeded; op := p1;
                     interval := interval s; failures := 0%Z; polls := n |}
              | PollingStatusFailed =>
                  {| phase := Failed FailedStatusError; op := p1;
                     interval := interval s; failures := 0%Z; polls := n |}
              | PollingStatusInProgress =>
                  {| phase := Polling; op := p1;
                     interval := if (PollInterval r =? 0)%Z
                                 then initialInterval d else PollInterval r;
                     failures := 0%Z; polls := n |}
              end
          | (None, None) =>
              {| phase := Failed (MalformedResponseError None); op := p1;
                 interval := interval s; failures := failures s; polls := n |}
          end
      end
  | _ => s
  end.

(** Modelled from the spec: the loop of [PollUntilDone], one transition per
    event until a terminal state is reached.
    [None] when the events run out while the driver is still polling. *)
Fixpoint run (d : Poller) (ctx : context_Context) (s : DriverState) (script : list Event)
  : option DriverState :=
  match phase s with
  | Polling =>
      match script with
      | [] => None
      | ev :: script' => run d ctx (step d ctx s ev) script'
      end
  | _ => Some s
  end.

(** The state the driver is in once it has met the events [pre], one
    transition of [step] for each, from its initial state.  It is still in
    [Polling] there exactly when none of them ended the run. *)
Definition after (d : Poller) (ctx : context_Context) (pre : list Event) : DriverState :=
  fold_left (step d ctx) pre (start d).

(** Modelled from the spec: what [PollUntilDone] hands back, "no result
    value beyond success/error": the error ([None] for [nil]), and
    how many times it invoked the Poll Operation. *)
Record Outcome : Type := {
  returned : option DriverError;
  pollsIssued : nat
}.

(** Modelled from the spec: [Succeeded] returns nil, [Failed] its error,
    [Cancelled] the cancellation error. *)
Definition outcome (s : DriverState) : Outcome :=
  {| returned :=
       match phase s with
       | Polling => None
       | Succeeded => None
       | Failed e => Some e
       | Cancelled => Some CancellationError
       end;
     pollsIssued := polls s |}.

(** Modelled from the spec: "PollUntilDone(cancellationContext) -> error",
    the driver run from its initial state. *)
Definition PollUntilDone (d : Poller) (ctx : context_Context) (script : list Event)
  : option Outcome :=
  option_map outcome (run d ctx (start d) script).

End Driver.

Arguments Poller : clear implicits.
Arguments DriverError : clear implicits.
Arguments DriverState : clear implicits.
Arguments Outcome : clear implicits.

(** ** The drivers the resource functions build *)

Section Callers.

Context {ExtensionsClient ClusterId context_Context http_Response odata_OData : Type}.

(** [pollers.DefaultNumberOfDroppedConnectionsToAllow], declared with the
    driver. *)
Variable DefaultNumberOfDroppedConnectionsToAllow : Z.

(** The poller of [disableHDInsightMonitoring]. *)
Definition disableHDInsightMonitoring_poller
    (client : ExtensionsClient) (clusterId : ClusterId)
  : Poller (DisableMonitoringPoller.t ExtensionsClient ClusterId) :=
  let pollType := NewDisableMonitoringPoller client clusterId in
  NewPoller pollType (10 * Second)%Z DefaultNumberOfDroppedConnectionsToAllow.

(** The poller of [disableHDInsightAzureMonitor]. *)
Definition disableHDInsightAzureMonitor_poller
    (client : ExtensionsClient) (clusterId : ClusterId)
  : Poller (DisableAzureMonitorPoller.t ExtensionsClient ClusterId) :=
  let pollType := NewDisableAzureMonitorPoller client clusterId in
  NewPoller pollType (10 * Second)%Z DefaultNumberOfDroppedConnectionsToAllow.

End Callers.

(** ** Equality of errors up to the message text *)

Section UpToText.

Context {ClusterId : Type}.

(** Two errors built the same way from the same operands; the format
    strings, hence the messages, may differ. *)
Definition sameOperands (a b : error ClusterId) : Prop :=
  match a, b with
  | errorString s, errorString s' => s = s'
  | Errorf1 _ i, Errorf1 _ j => i = j
  | Errorf2 _ i e, Errorf2 _ j e' => i = j /\ e = e'
  | _, _ => False
  end.

Definition equalUpToText (a b : option (error ClusterId)) : Prop :=
  match a, b with
  | None, None => True
  | Some e, Some e' => sameOperands e e'
  | _, _ => False
  end.

End UpToText.

(** ** Concrete replies *)

Module Sample.

(** A remote side whose query succeeds with HTTP status [200] and the
    decoded body [m]. *)
Definition respond (m : option ClusterMonitoringResponse)
  : Transport string string unit nat unit :=
  {| GetMonitoringStatus := fun _ _ _ =>
       ({| HttpResponse := Some 200; OData := None; Model := m |}, None) |}.

(** A remote side whose query fails with the error [msg]. *)
Definition refuse (msg : string) : Transport string string unit nat unit :=
  {| GetMonitoringStatus := fun _ _ _ =>
       ({| HttpResponse := None; OData := None; Model := None |},
        Some (errorString msg)) |}.

Definition flag (b : bool) : option ClusterMonitoringResponse :=
  Some {| ClusterMonitoringEnabled := Some b; WorkspaceId := None |}.

Definition noFlag : option ClusterMonitoringResponse :=
  Some {| ClusterMonitoringEnabled := None; WorkspaceId := None |}.

(** The responses those two give. *)
Definition ok (b : bool) : GetMonitoringStatusOperationResponse nat unit :=
  {| HttpResponse := Some 200; OData := None; Model := flag b |}.
Definition failed : GetMonitoringStatusOperationResponse nat unit :=
  {| HttpResponse := None; OData := None; Model := None |}.

(** The result both pollers return while the flag is still [true]. *)
Definition inProgressResult : PollResult nat unit :=
  {| PollResult_HttpResponse :=
       Some {| Response_OData := None; Response_Response := Some 200 |};
     PollInterval := 10000000000%Z;
     Status := PollingStatusInProgress |}.

Definition monitoring := NewDisableMonitoringPoller "client" "cluster1".
Definition azureMonitor := NewDisableAzureMonitorPoller "client" "cluster1".

End Sample.

Unset Implicit Arguments.

(** * common_hdinsight.go: the expand and flatten functions

    The functions below move data between the attribute bag of the resource
    (values of Go's [interface{}]: strings, numbers, lists
    [[]interface{}], maps [map[string]interface{}]) and the typed payloads
    of the API.  A failed type assertion, an index out of range and a nil
    dereference make Go panic; the functions that can do so return in
    [may_panic]. *)

(** ** Values and panics *)

#[local] Unset Elimination Schemes.
Inductive value : Type :=
| VNil
| VBool (b : bool)
| VInt (n : Z)
| VString (s : string)
| VList (l : list value)
| VMap (m : list (string * value)).
#[local] Set Elimination Schemes.

Inductive may_panic (A : Type) : Type :=
| Return (a : A)
| Panicked.

Arguments Return {A} a.
Arguments Panicked {A}.

Definition bind {A B : Type} (x : may_panic A) (f : A -> may_panic B) : may_panic B :=
  match x with
  | Return a => f a
  | Panicked => Panicked
  end.

Notation "x <- e ;; k" := (bind e (fun x => k))
  (at level 61, e at next level, right associativity).

(** ** Go maps with string keys

    A map is kept as the list of its entries, each key once.  [mapGet] is
    [m[k]] with its [ok]; [mapSet] is [m[k] = v]; [mapRange] is the loop
    [for k, val := range src { dst[k] = val }]. *)
Definition gomap (V : Type) : Type := list (string * V).

Fixpoint mapGet {V : Type} (m : gomap V) (k : string) : option V :=
  match m with
  | [] => None
  | (k', v) :: m' => if String.eqb k' k then Some v else mapGet m' k
  end.

Fixpoint mapSet {V : Type} (m : gomap V) (k : string) (v : V) : gomap V :=
  match m with
  | [] => [(k, v)]
  | (k', v') :: m' =>
      if String.eqb k' k then (k, v) :: m' else (k', v') :: mapSet m' k v
  end.

Definition mapRange {V : Type} (dst src : gomap V) : gomap V :=
  fold_left (fun acc kv => mapSet acc (fst kv) (snd kv)) src dst.

(** [x.([]interface{})] and [x.(map[string]interface{})]. *)
Definition asList (x : value) : may_panic (list value) :=
  match x with
  | VList l => Return l
  | _ => Panicked
  end.

Definition asMap (x : value) : may_panic (gomap value) :=
  match x with
  | VMap m => Return m
  | _ => Panicked
  end.

(** [v[k]] read without [ok]: the nil interface when the key is missing. *)
Definition index (v : gomap value) (k : string) : value :=
  match mapGet v k with
  | Some x => x
  | None => VNil
  end.

(** [*p]. *)
Definition deref {A : Type} (p : option A) : may_panic A :=
  match p with
  | Some a => Return a
  | None => Panicked
  end.

(** ** flattenHDInsightMonitoring, flattenHDInsightAzureMonitor *)

(** [extensions.AzureMonitorResponse], with the two fields
    [flattenHDInsightAzureMonitor] reads. *)
Module AzureMonitorResponse.
Record t : Type := {
  ClusterMonitoringEnabled : option bool;
  WorkspaceId : option string
}.
End AzureMonitorResponse.

Section Monitoring.

(** [pointer.From] at [string], declared in go-azure-helpers. *)
Variable pointer_From : option string -> string.

Definition flattenHDInsightMonitoring (input : option ClusterMonitoringResponse)
  : list (gomap string) :=
  let output := [] in
  match input with
  | Some input' =>
      match ClusterMonitoringEnabled input' with
      | Some true =>
          (output ++ [ [("log_analytics_workspace_id", pointer_From (WorkspaceId input'));
                        ("primary_key", "*****")] ])%list
      | _ => output
      end
  | None => output
  end.

Definition flattenHDInsightAzureMonitor (input : option AzureMonitorResponse.t)
  : list (gomap string) :=
  let output := [] in
  match input with
  | Some input' =>
      match AzureMonitorResponse.ClusterMonitoringEnabled input' with
      | Some true =>
          (output ++ [ [("log_analytics_workspace_id",
                         pointer_From (AzureMonitorResponse.WorkspaceId input'));
                        ("primary_key", "*****")] ])%list
      | _ => output
      end
  | None => output
  end.

End Monitoring.

(** ** expandHDInsightsMetastore, flattenHDInsightsMetastores *)

Section Metastores.

(** The expanders and flatteners of the three metastores, and the resource
    data with its [Set], are declared in other files.  An expander is called
    on the list of its section and returns a map, or panics; its panic is a
    panic of [expandHDInsightsMetastore]. *)
Variable ExpandHDInsightsHiveMetastore : list value -> may_panic (gomap value).
Variable ExpandHDInsightsOozieMetastore : list value -> may_panic (gomap value).
Variable ExpandHDInsightsAmbariMetastore : list value -> may_panic (gomap value).
Variable FlattenHDInsightsHiveMetastore : gomap string -> gomap string -> value.
Variable FlattenHDInsightsOozieMetastore : gomap string -> gomap string -> value.
Variable FlattenHDInsightsAmbariMetastore : gomap string -> value.
Variable ResourceData : Type.
Variable ResourceData_Set : ResourceData -> string -> value -> ResourceData.

Definition expandHDInsightsMetastore (input : list value) : may_panic (gomap value) :=
  match input with
  | [] => Return []
  | VNil :: _ => Return []
  | x :: _ =>
      v <- asMap x ;;
      let config := [] in
      config <- match mapGet v "hive" with
                | Some hiveRaw =>
                    l <- asList hiveRaw ;;
                    expanded <- ExpandHDInsightsHiveMetastore l ;;
                    Return (mapRange config expanded)
                | None => Return config
                end ;;
      config <- match mapGet v "oozie" with
                | Some oozieRaw =>
                    l <- asList oozieRaw ;;
                    expanded <- ExpandHDInsightsOozieMetastore l ;;
                    Return (mapRange config expanded)
                | None => Return config
                end ;;
      config <- match mapGet v "ambari" with
                | Some ambariRaw =>
                    l <- asList ambariRaw ;;
                    expanded <- ExpandHDInsightsAmbariMetastore l ;;
                    Return (mapRange config expanded)
                | None => Return config
                end ;;
      Return config
  end.

(** The function returns nothing; what it does is write to [d], which is
    returned here as the call leaves it. *)
Definition flattenHDInsightsMetastores (d : ResourceData)
    (configurations : gomap (gomap string)) : ResourceData :=
  let result : gomap value := [] in
  let result :=
    match mapGet configurations "hive-env", mapGet configurations "hive-site" with
    | Some hiveEnv, Some hiveSite =>
        mapSet result "hive" (FlattenHDInsightsHiveMetastore hiveEnv hiveSite)
    | _, _ => result
    end in
  let result :=
    match mapGet configurations "oozie-env", mapGet configurations "oozie-site" with
    | Some oozieEnv, Some oozieSite =>
        mapSet result "oozie" (FlattenHDInsightsOozieMetastore oozieEnv oozieSite)
    | _, _ => result
    end in
  let result :=
    match mapGet configurations "ambari-conf" with
    | Some ambari => mapSet result "ambari" (FlattenHDInsightsAmbariMetastore ambari)
    | None => result
    end in
  if (0 <? length result)%nat
  then ResourceData_Set d "metastores" (VList [VMap result])
  else d.

End Metastores.

Arguments flattenHDInsightsMetastores _ _ _ {_} _ _ _.

(** ** expandHDInsightRoles, flattenHDInsightRoles *)

Section Roles.

(** [HDInsightNodeDefinition], [hdinsight.Role], the errors of
    [ExpandHDInsightNodeDefinition] and the resource data, with the
    functions over them that the two role functions call, are declared in
    other files and in the SDK.  [ExpandHDInsightNodeDefinition] returns a
    role pointer and an error, as its callers below use them;
    [FlattenHDInsightNodeDefinition] is taken to return a list
    ([[]interface{}]), what a block of the schema holds. *)
Variables HDInsightNodeDefinition Role cause ResourceData : Type.
Variable ExpandHDInsightNodeDefinition :
  string -> list value -> HDInsightNodeDefinition -> option Role * option cause.
Variable FindHDInsightRole : option (list Role) -> string -> option Role.
Variable FlattenHDInsightNodeDefinition :
  option Role -> list value -> HDInsightNodeDefinition -> list value.
Variable ResourceData_Get : ResourceData -> string -> value.

Record hdInsightRoleDefinition : Type := {
  HeadNodeDef : HDInsightNodeDefinition;
  WorkerNodeDef : HDInsightNodeDefinition;
  ZookeeperNodeDef : HDInsightNodeDefinition;
  KafkaManagementNodeDef : option HDInsightNodeDefinition;
  EdgeNodeDef : option HDInsightNodeDefinition
}.

(** [hdinsight.ComputeProfile], with the field [flattenHDInsightRoles] reads. *)
Record ComputeProfile : Type := {
  Roles : option (list Role)
}.

(** [fmt.Errorf(format, err)], the one shape of error [expandHDInsightRoles]
    builds. *)
Inductive roleError : Type :=
| Errorf_v (format : string) (err : cause).

Definition expandHDInsightRoles (input : list value) (definition : hdInsightRoleDefinition)
  : may_panic (option (list Role) * option roleError) :=
  match input with
  | [] => Panicked
  | x :: _ =>
  v <- asMap x ;;
  headNodeRaw <- asList (index v "head_node") ;;
  match ExpandHDInsightNodeDefinition "headnode" headNodeRaw (HeadNodeDef definition) with
  | (_, Some err) => Return (None, Some (Errorf_v "expanding `head_node`: %+v" err))
  | (headNode, None) =>
  workerNodeRaw <- asList (index v "worker_node") ;;
  match ExpandHDInsightNodeDefinition "workernode" workerNodeRaw (WorkerNodeDef definition) with
  | (_, Some err) => Return (None, Some (Errorf_v "expanding `worker_node`: %+v" err))
  | (workerNode, None) =>
  zookeeperNodeRaw <- asList (index v "zookeeper_node") ;;
  match ExpandHDInsightNodeDefinition "zookeepernode" zookeeperNodeRaw
                                      (ZookeeperNodeDef definition) with
  | (_, Some err) => Return (None, Some (Errorf_v "expanding `zookeeper_node`: %+v" err))
  | (zookeeperNode, None) =>
  headNode' <- deref headNode ;;
  workerNode' <- deref workerNode ;;
  zookeeperNode' <- deref zookeeperNode ;;
  let roles := [headNode'; workerNode'; zookeeperNode'] in
  let kafkaManagement (roles : list Role) :=
    match KafkaManagementNodeDef definition with
    | Some kafkaManagementNodeDef =>
        kafkaManagementNodeRaw <- asList (index v "kafka_management_node") ;;
        if negb (length kafkaManagementNodeRaw =? 0)%nat then
          match ExpandHDInsightNodeDefinition "kafkamanagementnode" kafkaManagementNodeRaw
                                              kafkaManagementNodeDef with
          | (_, Some err) =>
              Return (None, Some (Errorf_v "expanding `kafka_management_node`: %+v" err))
          | (kafkaManagementNode, None) =>
              kafkaManagementNode' <- deref kafkaManagementNode ;;
              Return (Some (roles ++ [kafkaManagementNode'])%list, None)
          end
        else Return (Some roles, None)
    | None => Return (Some roles, None)
    end in
  match EdgeNodeDef definition with
  | Some edgeNodeDef =>
      edgeNodeRaw <- asList (index v "edge_node") ;;
      match ExpandHDInsightNodeDefinition "edgenode" edgeNodeRaw edgeNodeDef with
      | (_, Some err) => Return (None, Some (Errorf_v "expanding `edge_node`: %+v" err))
      | (edgeNode, None) =>
          edgeNode' <- deref edgeNode ;;
          kafkaManagement (roles ++ [edgeNode'])%list
      end
  | None => kafkaManagement roles
  end
  end end end
  end.

Definition flattenHDInsightRoles (d : ResourceData) (input : option ComputeProfile)
    (definition : hdInsightRoleDefinition) : may_panic (list value) :=
  match input with
  | None => Return []
  | Some input' =>
  match Roles input' with
  | None => Return []
  | Some _ =>
  existingVs <- asList (ResourceData_Get d "roles") ;;
  existing <-
    (if (0 <? length existingVs)%nat then
       existingV <- asMap (hd VNil existingVs) ;;
       existingEdgeNodes <-
         match EdgeNodeDef definition with
         | Some _ => asList (index existingV "edge_node")
         | None => Return []
         end ;;
       existingKafkaManagementNodes <-
         match KafkaManagementNodeDef definition with
         | Some _ => asList (index existingV "kafka_management_node")
         | None => Return []
         end ;;
       existingHeadNodes <- asList (index existingV "head_node") ;;
       existingWorkerNodes <- asList (index existingV "worker_node") ;;
       existingZookeeperNodes <- asList (index existingV "zookeeper_node") ;;
       Return (existingKafkaManagementNodes, existingEdgeNodes, existingHeadNodes,
               existingWorkerNodes, existingZookeeperNodes)
     else Return ([], [], [], [], [])) ;;
  let '(existingKafkaManagementNodes, existingEdgeNodes, existingHeadNodes,
        existingWorkerNodes, existingZookeeperNodes) := existing in
  let headNode := FindHDInsightRole (Roles input') "headnode" in
  let headNodes :=
    FlattenHDInsightNodeDefinition headNode existingHeadNodes (HeadNodeDef definition) in
  let workerNode := FindHDInsightRole (Roles input') "workernode" in
  let workerNodes :=
    FlattenHDInsightNodeDefinition workerNode existingWorkerNodes (WorkerNodeDef definition) in
  let zookeeperNode := FindHDInsightRole (Roles input') "zookeepernode" in
  let zookeeperNodes :=
    FlattenHDInsightNodeDefinition zookeeperNode existingZookeeperNodes
                                   (ZookeeperNodeDef definition) in
  let result : gomap value :=
    [("head_node", VList headNodes);
     ("worker_node", VList workerNodes);
     ("zookeeper_node", VList zookeeperNodes)] in
  let result :=
    match EdgeNodeDef definition with
    | Some edgeNodeDef =>
        let edgeNode := FindHDInsightRole (Roles input') "edgenode" in
        let edgeNodes :=
          FlattenHDInsightNodeDefinition edgeNode existingEdgeNodes edgeNodeDef in
        mapSet result "edge_node" (VList edgeNodes)
    | None => result
    end in
  let result :=
    match KafkaManagementNodeDef definition with
    | Some kafkaManagementNodeDef =>
        let kafkaManagementNode := FindHDInsightRole (Roles input') "kafkamanagementnode" in
        let kafkaManagementNodes :=
          FlattenHDInsightNodeDefinition kafkaManagementNode existingKafkaManagementNodes
                                         kafkaManagementNodeDef in
        mapSet result "kafka_management_node" (VList kafkaManagementNodes)
    | None => result
    end in
  Return [VMap result]
  end
  end.

End Roles.

Arguments HeadNodeDef {_} _.
Arguments WorkerNodeDef {_} _.
Arguments ZookeeperNodeDef {_} _.
Arguments KafkaManagementNodeDef {_} _.
Arguments EdgeNodeDef {_} _.
Arguments Roles {_} _.
Arguments Errorf_v {_} _ _.
Arguments expandHDInsightRoles {_ _ _} _ _ _.
Arguments flattenHDInsightRoles {_ _ _} _ _ _ _ _ _.

(** ** What the statements below speak of *)

(** The entries one section of the metastore block contributes: those its
    expander returns for the list under [key], none when the key is
    missing. *)
Definition metastoreSection (expand : list value -> may_panic (gomap value))
    (v : gomap value) (key : string) : gomap value :=
  match mapGet v key with
  | Some (VList l) =>
      match expand l with
      | Return m => m
      | Panicked => []
      end
  | _ => []
  end.

(** The section under [key] goes through: the key is missing from [v], or
    it holds a list and the expander returns on that list. *)
Definition sectionReturns (expand : list value -> may_panic (gomap value))
    (v : gomap value) (key : string) : bool :=
  match mapGet v key with
  | None => true
  | Some (VList l) =>
      match expand l with
      | Return _ => true
      | Panicked => false
      end
  | Some _ => false
  end.

(** The key holds a list in [v]. *)
Definition holdsList (v : gomap value) (key : string) : bool :=
  match mapGet v key with
  | Some (VList _) => true
  | _ => false
  end.

(** ** Concrete attribute bags *)

Module SampleBag.

(** A [pointer.From]: the string pointed to, the empty string for nil. *)
Definition fromPtr (p : option string) : string :=
  match p with
  | Some s => s
  | None => ""
  end.

Definition enabledResponse : ClusterMonitoringResponse :=
  {| ClusterMonitoringEnabled := Some true; WorkspaceId := Some "workspace-1" |}.

(** Expanders that file the list they are given under one or two keys; the
    one of ambari reads the first element of its list and panics when there
    is none. *)
Definition expandHive (l : list value) : may_panic (gomap value) :=
  Return [("hive-site", VList l); ("shared", VString "hive")].
Definition expandOozie (l : list value) : may_panic (gomap value) :=
  Return [("oozie-site", VList l); ("shared", VString "oozie")].
Definition expandAmbari (l : list value) : may_panic (gomap value) :=
  match l with
  | x :: _ => Return [("ambari-conf", x)]
  | [] => Panicked
  end.

Definition metastoreBlock : list value :=
  [VMap [("hive", VList [VString "h"]); ("oozie", VList [VString "o"])]].

(** Flatteners that return the server name they find, and a resource data
    that keeps what is set as a list of entries. *)
Definition flattenTwo (env site : gomap string) : value :=
  VList [VString (match mapGet site "server" with Some s => s | None => "" end)].
Definition flattenOne (conf : gomap string) : value :=
  VList [VString (match mapGet conf "server" with Some s => s | None => "" end)].
Definition setAttribute (d : gomap value) (k : string) (v : value) : gomap value :=
  mapSet d k v.

(** Node definitions, roles and errors are names; a node expands to the role
    of its name, unless its list holds no map. *)
Definition expandNode (name : string) (raw : list value) (def : string)
  : option string * option string :=
  match raw with
  | VMap _ :: _ => (Some (name ++ "/" ++ def), None)
  | _ => (None, Some ("no block for " ++ name))
  end.
Definition findRole (roles : option (list string)) (name : string) : option string :=
  match roles with
  | Some l => find (String.eqb name) l
  | None => None
  end.
Definition flattenNode (role : option string) (existing : list value) (def : string)
  : list value :=
  match role with
  | Some r => [VMap [("vm_size", VString r)]]
  | None => []
  end.
Definition getAttribute (d : gomap value) (k : string) : value := index d k.

Definition hadoop : hdInsightRoleDefinition string :=
  {| HeadNodeDef := "head"; WorkerNodeDef := "worker"; ZookeeperNodeDef := "zookeeper";
     KafkaManagementNodeDef := None; EdgeNodeDef := Some "edge" |}.
Definition kafka : hdInsightRoleDefinition string :=
  {| HeadNodeDef := "head"; WorkerNodeDef := "worker"; ZookeeperNodeDef := "zookeeper";
     KafkaManagementNodeDef := Some "management"; EdgeNodeDef := None |}.

Definition node : value := VList [VMap [("vm_size", VString "Standard_D3_V2")]].

Definition kafkaRoles : list value :=
  [VMap [("head_node", node); ("worker_node", node); ("zookeeper_node", node);
         ("kafka_management_node", VList [])]].

Definition hadoopRoles : list value :=
  [VMap [("head_node", node); ("worker_node", node); ("zookeeper_node", node);
         ("edge_node", node)]].

(** A block whose worker node list is empty. *)
Definition noWorkerRoles : list value :=
  [VMap [("head_node", node); ("worker_node", VList []); ("zookeeper_node", node);
         ("edge_node", node)]].

(** A resource data holding [hadoopRoles], the profile of a cluster with a
    head node and an edge node, and what [flattenHDInsightRoles] makes of
    them. *)
Definition stored : gomap value := [("roles", VList hadoopRoles)].
Definition profile : ComputeProfile string := {| Roles := Some ["headnode"; "edgenode"] |}.
Definition flattened : list value :=
  [VMap [("head_node", VList [VMap [("vm_size", VString "headnode")]]);
         ("worker_node", VList []);
         ("zookeeper_node", VList []);
         ("edge_node", VList [VMap [("vm_size", VString "edgenode")]])]].

Definition monitorBlock : gomap string :=
  [("log_analytics_workspace_id", "workspace-1"); ("primary_key", "*****")].

Definition metastoreConfig : gomap value :=
  [("hive-site", VList [VString "h"]); ("shared", VString "oozie");
   ("oozie-site", VList [VString "o"])].

End SampleBag.

(** * Properties of repeated polls *)

Section RepeatedProperties.

Context {ExtensionsClient ClusterId context_Context http_Response odata_OData : Type}.
Context {P : Type}
        {PT : PollerType ExtensionsClient ClusterId context_Context http_Response odata_OData P}.

(** A poll that leaves its receiver as it was returns the same thing however
    often it is repeated against the same answer. *)
Lemma PollTimes_stable (n : nat) (p : P) (ctx : context_Context)
    (tr : Transport ExtensionsClient ClusterId context_Context http_Response odata_OData) :
  fst (Poll p ctx tr) = p ->
  PollTimes n p ctx tr = (p, repeat (snd (Poll p ctx tr)) n).
Proof.
  intros Hp. induction n as [|n IH]; [reflexivity|].
  cbn [PollTimes repeat].
  destruct (Poll p ctx tr) as [p1 out] eqn:E.
  cbn [fst snd] in *. subst p1. rewrite IH. reflexivity.
Qed.

End RepeatedProperties.

(** * Properties of the Poll operations *)

Section PollProperties.

Context {ExtensionsClient ClusterId context_Context http_Response odata_OData : Type}.

Let transport := Transport ExtensionsClient ClusterId context_Context http_Response odata_OData.
Let result := PollResult http_Response odata_OData.

(** Unfolds both [Poll] methods at a receiver built by the constructors. *)
Ltac open_polls :=
  unfold DisableAzureMonitorPoller.Poll, DisableMonitoringPoller.Poll,
         NewDisableAzureMonitorPoller, NewDisableMonitoringPoller;
  cbn [DisableAzureMonitorPoller.client DisableAzureMonitorPoller.clusterId
       DisableMonitoringPoller.client DisableMonitoringPoller.clusterId].

(** Splits on the reply of the status query: the error, the body, the flag. *)
Ltac split_reply c ctx id tr :=
  destruct (GetMonitoringStatus tr c ctx id) as [resp [err|]];
  [ | destruct (Model resp) as [[[enabled|] ws]|] ];
  cbn [ClusterMonitoringEnabled fst snd].

(** C1.  When the query succeeds and the reply has both its body and the
    [ClusterMonitoringEnabled] field, each of the two [Poll] methods returns
    a result and no error, and the status of that result is [Succeeded]
    exactly when the flag is [false] and [InProgress] exactly when it is
    [true]. *)
Theorem Poll_status_follows_flag
    (c : ExtensionsClient) (id : ClusterId) (ctx : context_Context) (tr : transport)
    (resp : GetMonitoringStatusOperationResponse http_Response odata_OData)
    (model : ClusterMonitoringResponse) (enabled : bool) :
  GetMonitoringStatus tr c ctx id = (resp, None) ->
  Model resp = Some model ->
  ClusterMonitoringEnabled model = Some enabled ->
  (exists r : result,
      snd (DisableAzureMonitorPoller.Poll (NewDisableAzureMonitorPoller c id) ctx tr)
        = (Some r, None)
      /\ (Status r = PollingStatusSucceeded <-> enabled = false)
      /\ (Status r = PollingStatusInProgress <-> enabled = true))
  /\
  (exists r : result,
      snd (DisableMonitoringPoller.Poll (NewDisableMonitoringPoller c id) ctx tr)
        = (Some r, None)
      /\ (Status r = PollingStatusSucceeded <-> enabled = false)
      /\ (Status r = PollingStatusInProgress <-> enabled = true)).
Proof.
  intros Hq Hm Hf. open_polls. rewrite Hq, Hm, Hf.
  split; eexists; (split; [reflexivity|]); cbn [Status snd];
    destruct enabled; cbn; (split; split; congruence).
Qed.

(** C4.  When the status query returns an error, each [Poll] returns that
    error wrapped and a nil result: no [PollResult] at all, so none with
    status [Failed]. *)
Theorem Poll_query_error
    (c : ExtensionsClient) (id : ClusterId) (ctx : context_Context) (tr : transport)
    (resp : GetMonitoringStatusOperationResponse http_Response odata_OData)
    (err : error ClusterId) :
  GetMonitoringStatus tr c ctx id = (resp, Some err) ->
  snd (DisableAzureMonitorPoller.Poll (NewDisableAzureMonitorPoller c id) ctx tr)
    = (None, Some (Errorf2 "retrieving Azure Monitor Status for %s: %+v" id err))
  /\
  snd (DisableMonitoringPoller.Poll (NewDisableMonitoringPoller c id) ctx tr)
    = (None, Some (Errorf2 "retrieving Monitoring Status for %s: %+v" id err)).
Proof.
  intros Hq. open_polls. rewrite Hq. split; reflexivity.
Qed.

(** C5.  Whatever the reply, a [PollResult] returned by either [Poll]
    carries a [PollInterval] of ten seconds, 10000000000 nanoseconds. *)
Theorem Poll_interval_ten_seconds
    (c : ExtensionsClient) (id : ClusterId) (ctx : context_Context) (tr : transport)
    (r : result) :
  fst (snd (DisableAzureMonitorPoller.Poll (NewDisableAzureMonitorPoller c id) ctx tr)) = Some r
  \/ fst (snd (DisableMonitoringPoller.Poll (NewDisableMonitoringPoller c id) ctx tr)) = Some r ->
  PollInterval r = (10 * Second)%Z /\ PollInterval r = 10000000000%Z.
Proof.
  open_polls. split_reply c ctx id tr; intros [H|H]; try discriminate H;
    injection H as <-; split; reflexivity.
Qed.

(** C10.  For every receiver state and reply, each [Poll] returns either an
    error with a nil result, or a result with a nil error whose status is
    [InProgress] or [Succeeded]; the status [Failed] never comes out. *)
Theorem Poll_never_Failed
    (c : ExtensionsClient) (id : ClusterId) (ctx : context_Context) (tr : transport) :
  let outA := snd (DisableAzureMonitorPoller.Poll (NewDisableAzureMonitorPoller c id) ctx tr) in
  let outM := snd (DisableMonitoringPoller.Poll (NewDisableMonitoringPoller c id) ctx tr) in
  ((exists e, outA = (None, Some e))
   \/ (exists r : result, outA = (Some r, None)
         /\ (Status r = PollingStatusInProgress \/ Status r = PollingStatusSucceeded)
         /\ Status r <> PollingStatusFailed))
  /\
  ((exists e, outM = (None, Some e))
   \/ (exists r : result, outM = (Some r, None)
         /\ (Status r = PollingStatusInProgress \/ Status r = PollingStatusSucceeded)
         /\ Status r <> PollingStatusFailed)).
Proof.
  open_polls. split_reply c ctx id tr; split;
    solve [ left; eexists; reflexivity
          | right; eexists; split; [reflexivity|]; cbn [Status];
            destruct enabled; cbn; split; (auto || discriminate) ].
Qed.

(** C8.  The two [Poll] methods agree on every reply: they return the same
    result (status, [PollInterval] and response envelope alike), their
    errors are built from the same operands and differ in the format text
    only, and both read the reply of the one query [GetMonitoringStatus]
    for the receiver's client and cluster: a remote side that answers that
    query the same way gets the same return from each. *)
Theorem Poll_variants_agree
    (c : ExtensionsClient) (id : ClusterId) (ctx : context_Context) (tr tr' : transport) :
  GetMonitoringStatus tr' c ctx id = GetMonitoringStatus tr c ctx id ->
  let pollA := DisableAzureMonitorPoller.Poll (NewDisableAzureMonitorPoller c id) ctx in
  let pollM := DisableMonitoringPoller.Poll (NewDisableMonitoringPoller c id) ctx in
  fst (snd (pollA tr)) = fst (snd (pollM tr))
  /\ equalUpToText (snd (snd (pollA tr))) (snd (snd (pollM tr)))
  /\ pollA tr' = pollA tr
  /\ pollM tr' = pollM tr.
Proof.
  intros Hq. open_polls. rewrite Hq.
  split_reply c ctx id tr; cbn; auto.
Qed.

(** C9.  Calling [Poll] any number of times while the remote side keeps
    giving the same answer returns the same result and error on every
    call, and leaves the receiver, its [client] and [clusterId], as it
    was. *)
Theorem Poll_idempotent
    (n : nat) (ctx : context_Context) (tr : transport)
    (pa : DisableAzureMonitorPoller.t ExtensionsClient ClusterId)
    (pm : DisableMonitoringPoller.t ExtensionsClient ClusterId) :
  (fst (DisableAzureMonitorPoller.Poll pa ctx tr) = pa
   /\ PollTimes n pa ctx tr = (pa, repeat (snd (DisableAzureMonitorPoller.Poll pa ctx tr)) n))
  /\
  (fst (DisableMonitoringPoller.Poll pm ctx tr) = pm
   /\ PollTimes n pm ctx tr = (pm, repeat (snd (DisableMonitoringPoller.Poll pm ctx tr)) n)).
Proof.
  assert (HA : fst (DisableAzureMonitorPoller.Poll pa ctx tr) = pa).
  { unfold DisableAzureMonitorPoller.Poll.
    destruct (GetMonitoringStatus tr _ ctx _) as [resp [err|]];
      [ | destruct (Model resp) as [[[enabled|] ws]|] ]; reflexivity. }
  assert (HM : fst (DisableMonitoringPoller.Poll pm ctx tr) = pm).
  { unfold DisableMonitoringPoller.Poll.
    destruct (GetMonitoringStatus tr _ ctx _) as [resp [err|]];
      [ | destruct (Model resp) as [[[enabled|] ws]|] ]; reflexivity. }
  repeat split; trivial.
  - apply (PollTimes_stable (PT := DisableAzureMonitorPoller_PollerType) n pa ctx tr); exact HA.
  - apply (PollTimes_stable (PT := DisableMonitoringPoller_PollerType) n pm ctx tr); exact HM.
Qed.

End PollProperties.

(** * Properties of the Poller Driver *)

Section DriverProperties.

Context {ExtensionsClient ClusterId context_Context http_Response odata_OData : Type}.
Context {P : Type}
        {PT : PollerType ExtensionsClient ClusterId context_Context http_Response odata_OData P}.

Let transport := Transport ExtensionsClient ClusterId context_Context http_Response odata_OData.

Variable d : Poller P.
Variable ctx : context_Context.

Lemma run_Polling (s : DriverState ClusterId P) (ev : Event) (script : list Event) :
  phase s = Polling ->
  run d ctx s (ev :: script) = run d ctx (step d ctx s ev) script.
Proof.
  intros H. cbn [run]. rewrite H. reflexivity.
Qed.

Lemma run_terminal (s : DriverState ClusterId P) (script : list Event) :
  phase s <> Polling ->
  run d ctx s script = Some s.
Proof.
  intros H. destruct script; cbn [run]; destruct (phase s); congruence.
Qed.

(** A terminal state takes no further transition: no poll is issued from it. *)
Lemma step_terminal (s : DriverState ClusterId P) (ev : Event) :
  phase s <> Polling ->
  step d ctx s ev = s.
Proof.
  intros H. unfold step. destruct (phase s); congruence.
Qed.

(** One poll that reports [InProgress]: the driver stays in [Polling], has
    issued one more poll and counts no failure. *)
Lemma step_InProgress (s : DriverState ClusterId P) (tr : transport)
    (p1 : P) (r : PollResult http_Response odata_OData) :
  phase s = Polling ->
  Poll (op s) ctx tr = (p1, (Some r, None)) ->
  Status r = PollingStatusInProgress ->
  let s' := step d ctx s (Answer tr) in
  phase s' = Polling /\ op s' = p1 /\ polls s' = S (polls s) /\ failures s' = 0%Z.
Proof.
  intros Hp Hpoll Hst. unfold step. rewrite Hp, Hpoll, Hst. cbn. auto.
Qed.

(** A run of polls that all report [InProgress] is passed through, one
    poll each. *)
Lemma run_inProgress (trs : list transport) :
  forall (s : DriverState ClusterId P) (p1 : P) (rest : list Event),
    phase s = Polling ->
    inProgressRun (op s) ctx trs = Some p1 ->
    exists s' : DriverState ClusterId P,
      run d ctx s (map Answer trs ++ rest) = run d ctx s' rest
      /\ phase s' = Polling /\ op s' = p1
      /\ polls s' = polls s + length trs.
Proof.
  induction trs as [|tr trs IH]; intros s p1 rest Hp Hrun.
  - cbn in Hrun. injection Hrun as <-. exists s. cbn. auto with arith.
  - cbn [inProgressRun] in Hrun.
    destruct (Poll (op s) ctx tr) as [q [[r|] [e|]]] eqn:Hpoll; try discriminate Hrun.
    destruct (Status r) eqn:Hst; cbn in Hrun; try discriminate Hrun.
    destruct (step_InProgress s tr q r Hp Hpoll Hst) as (Hp' & Hop & Hn & _).
    rewrite <- Hop in Hrun.
    destruct (IH _ p1 rest Hp' Hrun) as (s' & Hr & Hq & Ho & Hk).
    exists s'. cbn [map app]. rewrite (run_Polling _ _ _ Hp), Hr.
    repeat split; trivial. rewrite Hk, Hn. cbn [length]. lia.
Qed.

(** C3.  When the first [N-1] polls report [InProgress] and the next one
    reports [Succeeded], [PollUntilDone] returns nil after exactly [N]
    invocations of the Poll Operation, whatever would have followed. *)
Theorem PollUntilDone_succeeds_after_N_polls
    (trs : list transport) (last : transport) (rest : list Event)
    (p1 p2 : P) (r : PollResult http_Response odata_OData) :
  inProgressRun (operation d) ctx trs = Some p1 ->
  Poll p1 ctx last = (p2, (Some r, None)) ->
  Status r = PollingStatusSucceeded ->
  PollUntilDone d ctx (map Answer trs ++ Answer last :: rest)
    = Some {| returned := None; pollsIssued := S (length trs) |}.
Proof.
  intros Hrun Hlast Hst. unfold PollUntilDone.
  destruct (run_inProgress trs (start d) p1 (Answer last :: rest) eq_refl Hrun)
    as (s' & Hr & Hp & Ho & Hk).
  rewrite Hr, (run_Polling _ _ _ Hp).
  assert (Hs : step d ctx s' (Answer last)
               = {| phase := Succeeded; op := p2; interval := interval s';
                    failures := 0%Z; polls := S (polls s') |}).
  { unfold step. rewrite Hp, Ho, Hlast, Hst. reflexivity. }
  rewrite Hs, run_terminal by (cbn; discriminate).
  cbn. rewrite Hk. reflexivity.
Qed.

(** A terminal state is where the driver stays, whatever comes. *)
Lemma fold_step_terminal (pre : list Event) (s : DriverState ClusterId P) :
  phase s <> Polling ->
  fold_left (step d ctx) pre s = s.
Proof.
  induction pre as [|ev pre IH]; intros H; [reflexivity|].
  cbn [fold_left]. rewrite (step_terminal s ev H). exact (IH H).
Qed.

(** A driver found polling after some events was polling before them. *)
Lemma polling_before (pre : list Event) (s : DriverState ClusterId P) :
  phase (fold_left (step d ctx) pre s) = Polling ->
  phase s = Polling.
Proof.
  intros H. destruct (phase s) eqn:E; trivial;
    rewrite fold_step_terminal in H by (rewrite E; discriminate); congruence.
Qed.

(** Each answered poll is one poll issued. *)
Lemma step_Answer_polls (s : DriverState ClusterId P) (tr : transport) :
  phase s = Polling ->
  polls (step d ctx s (Answer tr)) = S (polls s).
Proof.
  intros H. unfold step. rewrite H.
  destruct (Poll (op s) ctx tr) as [p1 [[r|] [e|]]];
    try destruct (isQueryError e); try destruct (allowance d <? failures s + 1)%Z;
    try destruct (Status r); reflexivity.
Qed.

(** The events that leave the driver polling are consumed by the loop one
    by one. *)
Lemma run_fold (pre rest : list Event) :
  forall s : DriverState ClusterId P,
    phase (fold_left (step d ctx) pre s) = Polling ->
    run d ctx s (pre ++ rest) = run d ctx (fold_left (step d ctx) pre s) rest.
Proof.
  induction pre as [|ev pre IH]; intros s H; [reflexivity|].
  cbn [fold_left app] in *.
  assert (Hs : phase s = Polling).
  { apply polling_before in H. destruct (phase s) eqn:E; trivial;
      rewrite step_terminal in H by (rewrite E; discriminate); congruence. }
  rewrite (run_Polling _ _ _ Hs). exact (IH _ H).
Qed.

(** The events that leave the driver polling are answered polls, and each
    of them was one poll issued. *)
Lemma polls_fold (pre : list Event) :
  forall s : DriverState ClusterId P,
    phase (fold_left (step d ctx) pre s) = Polling ->
    polls (fold_left (step d ctx) pre s) = polls s + length pre.
Proof.
  induction pre as [|ev pre IH]; intros s H; cbn [fold_left length] in *; [lia|].
  pose proof (polling_before _ _ H) as Hstep.
  assert (Hs : phase s = Polling).
  { destruct (phase s) eqn:E; trivial;
      rewrite step_terminal in Hstep by (rewrite E; discriminate); congruence. }
  rewrite (IH _ H). destruct ev as [|tr].
  - unfold step in Hstep. rewrite Hs in Hstep. discriminate Hstep.
  - rewrite (step_Answer_polls s tr Hs). lia.
Qed.

(** Cancellation, met in any polling state, ends the run there. *)
Lemma step_Cancel (s : DriverState ClusterId P) :
  phase s = Polling ->
  step d ctx s Cancel
    = {| phase := Cancelled; op := op s; interval := interval s;
         failures := failures s; polls := polls s |}.
Proof.
  intros H. unfold step. rewrite H. reflexivity.
Qed.

(** C7.  Whenever the driver is waiting between polls, that is, wherever
    the events met so far have left it polling (after polls in progress,
    after failed queries that are being retried, in any mix, or before the
    first poll), a cancellation found then makes [PollUntilDone] return the
    [CancellationError], which is none of the errors a failed or malformed
    poll gives; the polls issued are the ones answered before it, and no
    other, whatever the remote side would have answered next.  The same
    holds from every polling state, whatever its counters. *)
Theorem PollUntilDone_cancelled
    (pre rest : list Event) :
  phase (after d ctx pre) = Polling ->
  PollUntilDone d ctx (pre ++ Cancel :: rest)
    = Some {| returned := Some CancellationError; pollsIssued := length pre |}
  /\ (forall s : DriverState ClusterId P,
        phase s = Polling ->
        run d ctx s (Cancel :: rest)
          = Some {| phase := Cancelled; op := op s; interval := interval s;
                    failures := failures s; polls := polls s |})
  /\ (forall (trs : list transport) (p1 : P),
        inProgressRun (operation d) ctx trs = Some p1 ->
        PollUntilDone d ctx (map Answer trs ++ Cancel :: rest)
          = Some {| returned := Some CancellationError; pollsIssued := length trs |})
  /\ (forall e : error ClusterId, CancellationError <> TimeoutExceededError e)
  /\ (forall e : option (error ClusterId), CancellationError <> MalformedResponseError e).
Proof.
  intros Hpre.
  assert (Hstate : forall s : DriverState ClusterId P,
             phase s = Polling ->
             run d ctx s (Cancel :: rest)
               = Some {| phase := Cancelled; op := op s; interval := interval s;
                         failures := failures s; polls := polls s |}).
  { intros s Hs. rewrite (run_Polling _ _ _ Hs), (step_Cancel s Hs).
    apply run_terminal. cbn. discriminate. }
  split; [|split; [exact Hstate|split; [|split; discriminate]]].
  - unfold PollUntilDone, after in *.
    rewrite (run_fold pre (Cancel :: rest) (start d) Hpre), (Hstate _ Hpre).
    cbn [option_map outcome phase polls].
    rewrite (polls_fold pre (start d) Hpre). reflexivity.
  - intros trs p1 Hrun. unfold PollUntilDone.
    destruct (run_inProgress trs (start d) p1 (Cancel :: rest) eq_refl Hrun)
      as (s' & Hr & Hp & Ho & Hk).
    rewrite Hr, (Hstate _ Hp). cbn. rewrite Hk. reflexivity.
Qed.

(** One poll whose error reports a failed query, met with [k] failures
    counted and the allowance not yet exceeded: the driver stays in
    [Polling] with one more failure counted. *)
Lemma step_failure_retried (s : DriverState ClusterId P) (tr : transport)
    (p1 : P) (x : option (PollResult http_Response odata_OData)) (e : error ClusterId) :
  phase s = Polling ->
  Poll (op s) ctx tr = (p1, (x, Some e)) ->
  isQueryError e = true ->
  (failures s + 1 <= allowance d)%Z ->
  step d ctx s (Answer tr)
    = {| phase := Polling; op := p1; interval := interval s;
         failures := (failures s + 1)%Z; polls := S (polls s) |}.
Proof.
  intros Hp Hpoll Hq Hle. unfold step. rewrite Hp, Hpoll.
  destruct x; rewrite Hq; destruct (Z.ltb_spec (allowance d) (failures s + 1));
    (reflexivity || lia).
Qed.

(** The same poll once the allowance is exceeded: the driver fails with the
    [TimeoutExceededError] that wraps this last error. *)
Lemma step_failure_fatal (s : DriverState ClusterId P) (tr : transport)
    (p1 : P) (x : option (PollResult http_Response odata_OData)) (e : error ClusterId) :
  phase s = Polling ->
  Poll (op s) ctx tr = (p1, (x, Some e)) ->
  isQueryError e = true ->
  (allowance d < failures s + 1)%Z ->
  step d ctx s (Answer tr)
    = {| phase := Failed (TimeoutExceededError e); op := p1; interval := interval s;
         failures := (failures s + 1)%Z; polls := S (polls s) |}.
Proof.
  intros Hp Hpoll Hq Hlt. unfold step. rewrite Hp, Hpoll.
  destruct x; rewrite Hq; destruct (Z.ltb_spec (allowance d) (failures s + 1));
    (reflexivity || lia).
Qed.

(** A poll that returns a result leaves no failure counted. *)
Lemma step_result_resets (s : DriverState ClusterId P) (tr : transport)
    (p1 : P) (r : PollResult http_Response odata_OData) :
  phase s = Polling ->
  Poll (op s) ctx tr = (p1, (Some r, None)) ->
  failures (step d ctx s (Answer tr)) = 0%Z.
Proof.
  intros Hp Hpoll. unfold step. rewrite Hp, Hpoll. destruct (Status r); reflexivity.
Qed.

(** A first poll whose error reports no failed query ends the run at once. *)
Lemma PollUntilDone_first_malformed (tr : transport) (rest : list Event)
    (p1 : P) (x : option (PollResult http_Response odata_OData)) (e : error ClusterId) :
  Poll (operation d) ctx tr = (p1, (x, Some e)) ->
  isQueryError e = false ->
  PollUntilDone d ctx (Answer tr :: rest)
    = Some {| returned := Some (MalformedResponseError (Some e)); pollsIssued := 1 |}.
Proof.
  intros Hpoll Hq. unfold PollUntilDone.
  rewrite run_Polling by reflexivity.
  assert (Hs : step d ctx (start d) (Answer tr)
               = {| phase := Failed (MalformedResponseError (Some e)); op := p1;
                    interval := initialInterval d; failures := 0%Z; polls := 1 |}).
  { unfold step. cbn [start phase op]. rewrite Hpoll. destruct x; rewrite Hq; reflexivity. }
  rewrite Hs, run_terminal by (cbn; discriminate).
  reflexivity.
Qed.

(** C6.  With the allowance set to 2, three polls in a row whose query
    fails make [PollUntilDone] return the [TimeoutExceededError] wrapping
    the error of the third, after exactly three polls; and from any polling
    state, whatever its failure count, a poll that returns a result brings
    the count of consecutive failures back to zero. *)
Theorem PollUntilDone_three_failures
    (t1 t2 t3 : transport) (rest : list Event) (p1 p2 p3 : P)
    (x1 x2 x3 : option (PollResult http_Response odata_OData))
    (e1 e2 e3 : error ClusterId)
    (s : DriverState ClusterId P) (tr : transport) (q : P)
    (r : PollResult http_Response odata_OData) :
  allowance d = 2%Z ->
  Poll (operation d) ctx t1 = (p1, (x1, Some e1)) -> isQueryError e1 = true ->
  Poll p1 ctx t2 = (p2, (x2, Some e2)) -> isQueryError e2 = true ->
  Poll p2 ctx t3 = (p3, (x3, Some e3)) -> isQueryError e3 = true ->
  phase s = Polling ->
  Poll (op s) ctx tr = (q, (Some r, None)) ->
  PollUntilDone d ctx (Answer t1 :: Answer t2 :: Answer t3 :: rest)
    = Some {| returned := Some (TimeoutExceededError e3); pollsIssued := 3 |}
  /\ failures (step d ctx s (Answer tr)) = 0%Z.
Proof.
  intros Ha H1 Q1 H2 Q2 H3 Q3 Hp Hr.
  split; [|exact (step_result_resets s tr q r Hp Hr)].
  unfold PollUntilDone.
  rewrite run_Polling by reflexivity.
  rewrite step_failure_retried with (p1 := p1) (x := x1) (e := e1);
    [ | reflexivity | exact H1 | exact Q1 | rewrite Ha; cbn; lia ].
  rewrite run_Polling by reflexivity.
  rewrite step_failure_retried with (p1 := p2) (x := x2) (e := e2);
    [ | reflexivity | exact H2 | exact Q2 | rewrite Ha; cbn; lia ].
  rewrite run_Polling by reflexivity.
  rewrite step_failure_fatal with (p1 := p3) (x := x3) (e := e3);
    [ | reflexivity | exact H3 | exact Q3 | rewrite Ha; cbn; lia ].
  rewrite run_terminal by (cbn; discriminate).
  reflexivity.
Qed.

(** A poll whose error reports no failed query, met in any polling state,
    ends the run there. *)
Lemma run_malformed (s : DriverState ClusterId P) (tr : transport) (rest : list Event)
    (p1 : P) (x : option (PollResult http_Response odata_OData)) (e : error ClusterId) :
  phase s = Polling ->
  Poll (op s) ctx tr = (p1, (x, Some e)) ->
  isQueryError e = false ->
  run d ctx s (Answer tr :: rest)
    = Some {| phase := Failed (MalformedResponseError (Some e)); op := p1;
              interval := interval s; failures := failures s; polls := S (polls s) |}.
Proof.
  intros Hs Hpoll Hq. rewrite (run_Polling _ _ _ Hs).
  assert (Hstep : step d ctx s (Answer tr)
                  = {| phase := Failed (MalformedResponseError (Some e)); op := p1;
                       interval := interval s; failures := failures s;
                       polls := S (polls s) |}).
  { unfold step. rewrite Hs, Hpoll. destruct x; rewrite Hq; reflexivity. }
  rewrite Hstep. apply run_terminal. cbn. discriminate.
Qed.

(** Under a Poll Operation that leaves its receiver as it was, the driver
    holds the operation it was built with throughout. *)
Lemma op_fold (pre : list Event) :
  (forall (p : P) (tr : transport), fst (Poll p ctx tr) = p) ->
  forall s : DriverState ClusterId P,
    op (fold_left (step d ctx) pre s) = op s.
Proof.
  intros Hstable. induction pre as [|ev pre IH]; intros s; [reflexivity|].
  cbn [fold_left]. rewrite IH. unfold step.
  destruct (phase s); try reflexivity. destruct ev as [|tr]; [reflexivity|].
  specialize (Hstable (op s) tr).
  destruct (Poll (op s) ctx tr) as [p1 [[r|] [e|]]]; cbn [fst] in Hstable; subst p1;
    try destruct (isQueryError e); try destruct (allowance d <? failures s + 1)%Z;
    try destruct (Status r); reflexivity.
Qed.

End DriverProperties.

(** * The pollers under the driver *)

Section PollersUnderDriver.

Context {ExtensionsClient ClusterId context_Context http_Response odata_OData : Type}.

Let transport := Transport ExtensionsClient ClusterId context_Context http_Response odata_OData.

Lemma DisableAzureMonitorPoller_Poll_receiver
    (p : DisableAzureMonitorPoller.t ExtensionsClient ClusterId)
    (ctx : context_Context) (tr : transport) :
  fst (DisableAzureMonitorPoller.Poll p ctx tr) = p.
Proof.
  unfold DisableAzureMonitorPoller.Poll.
  destruct (GetMonitoringStatus tr _ ctx _) as [resp [err|]];
    [ | destruct (Model resp) as [[[enabled|] ws]|] ]; reflexivity.
Qed.

Lemma DisableMonitoringPoller_Poll_receiver
    (p : DisableMonitoringPoller.t ExtensionsClient ClusterId)
    (ctx : context_Context) (tr : transport) :
  fst (DisableMonitoringPoller.Poll p ctx tr) = p.
Proof.
  unfold DisableMonitoringPoller.Poll.
  destruct (GetMonitoringStatus tr _ ctx _) as [resp [err|]];
    [ | destruct (Model resp) as [[[enabled|] ws]|] ]; reflexivity.
Qed.

(** C2.  When the reply to the status query has no body, or a body without
    the [ClusterMonitoringEnabled] field, each [Poll] returns an error and a
    nil result; and when that reply came without a query error, a
    [PollUntilDone] that meets it fails there and then with the
    [MalformedResponseError] carrying that error, without another poll,
    whatever the interval and the allowance: on its first poll; on any later
    poll, wherever the events met before have left the driver polling (one
    poll more than those answered before); and from every polling state of
    the driver, whatever its counters. *)
Theorem Poll_missing_field_is_fatal
    (c : ExtensionsClient) (id : ClusterId) (ctx : context_Context) (tr : transport)
    (initial : Duration) (allowed : Z) (rest : list Event) :
  Model (fst (GetMonitoringStatus tr c ctx id)) = None
  \/ (exists m, Model (fst (GetMonitoringStatus tr c ctx id)) = Some m
                /\ ClusterMonitoringEnabled m = None) ->
  (exists e,
      snd (DisableAzureMonitorPoller.Poll (NewDisableAzureMonitorPoller c id) ctx tr)
        = (None, Some e)
      /\ (snd (GetMonitoringStatus tr c ctx id) = None ->
          let d := NewPoller (NewDisableAzureMonitorPoller c id) initial allowed in
          PollUntilDone d ctx (Answer tr :: rest)
            = Some {| returned := Some (MalformedResponseError (Some e));
                      pollsIssued := 1 |}
          /\ (forall pre : list Event,
                phase (after d ctx pre) = Polling ->
                PollUntilDone d ctx (pre ++ Answer tr :: rest)
                  = Some {| returned := Some (MalformedResponseError (Some e));
                            pollsIssued := S (length pre) |})
          /\ (forall s : DriverState ClusterId
                           (DisableAzureMonitorPoller.t ExtensionsClient ClusterId),
                phase s = Polling ->
                op s = NewDisableAzureMonitorPoller c id ->
                run d ctx s (Answer tr :: rest)
                  = Some {| phase := Failed (MalformedResponseError (Some e));
                            op := NewDisableAzureMonitorPoller c id;
                            interval := interval s;
                            failures := failures s;
                            polls := S (polls s) |})))
  /\
  (exists e,
      snd (DisableMonitoringPoller.Poll (NewDisableMonitoringPoller c id) ctx tr)
        = (None, Some e)
      /\ (snd (GetMonitoringStatus tr c ctx id) = None ->
          let d := NewPoller (NewDisableMonitoringPoller c id) initial allowed in
          PollUntilDone d ctx (Answer tr :: rest)
            = Some {| returned := Some (MalformedResponseError (Some e));
                      pollsIssued := 1 |}
          /\ (forall pre : list Event,
                phase (after d ctx pre) = Polling ->
                PollUntilDone d ctx (pre ++ Answer tr :: rest)
                  = Some {| returned := Some (MalformedResponseError (Some e));
                            pollsIssued := S (length pre) |})
          /\ (forall s : DriverState ClusterId
                           (DisableMonitoringPoller.t ExtensionsClient ClusterId),
                phase s = Polling ->
                op s = NewDisableMonitoringPoller c id ->
                run d ctx s (Answer tr :: rest)
                  = Some {| phase := Failed (MalformedResponseError (Some e));
                            op := NewDisableMonitoringPoller c id;
                            interval := interval s;
                            failures := failures s;
                            polls := S (polls s) |}))).
Proof.
  intros H.
  (* the driver half, for a Poll Operation that leaves its receiver alone *)
  assert (Hdriver :
    forall (P : Type)
           (PT : PollerType ExtensionsClient ClusterId context_Context http_Response
                            odata_OData P)
           (p : P) (e : error ClusterId),
      (forall (q : P) (t : transport), fst (Poll q ctx t) = q) ->
      snd (Poll p ctx tr) = (None, Some e) ->
      isQueryError e = false ->
      let d := NewPoller p initial allowed in
      PollUntilDone d ctx (Answer tr :: rest)
        = Some {| returned := Some (MalformedResponseError (Some e)); pollsIssued := 1 |}
      /\ (forall pre : list Event,
            phase (after d ctx pre) = Polling ->
            PollUntilDone d ctx (pre ++ Answer tr :: rest)
              = Some {| returned := Some (MalformedResponseError (Some e));
                        pollsIssued := S (length pre) |})
      /\ (forall s : DriverState ClusterId P,
            phase s = Polling ->
            op s = p ->
            run d ctx s (Answer tr :: rest)
              = Some {| phase := Failed (MalformedResponseError (Some e));
                        op := p;
                        interval := interval s;
                        failures := failures s;
                        polls := S (polls s) |})).
  { intros P PT p e Hstable He Hq d.
    assert (Hpoll : Poll p ctx tr = (p, (None, Some e))).
    { specialize (Hstable p tr). destruct (Poll p ctx tr) as [p1 out].
      cbn [fst snd] in *. congruence. }
    assert (Hstate : forall s : DriverState ClusterId P,
               phase s = Polling -> op s = p ->
               run d ctx s (Answer tr :: rest)
                 = Some {| phase := Failed (MalformedResponseError (Some e));
                           op := p;
                           interval := interval s;
                           failures := failures s;
                           polls := S (polls s) |}).
    { intros s Hs Hop.
      apply (run_malformed d ctx s tr rest p None e Hs); [rewrite Hop; exact Hpoll|exact Hq]. }
    assert (Hpre : forall pre : list Event,
               phase (after d ctx pre) = Polling ->
               PollUntilDone d ctx (pre ++ Answer tr :: rest)
                 = Some {| returned := Some (MalformedResponseError (Some e));
                           pollsIssued := S (length pre) |}).
    { intros pre Hp. unfold PollUntilDone, after in *.
      rewrite (run_fold d ctx pre (Answer tr :: rest) (start d) Hp).
      rewrite (Hstate _ Hp (op_fold d ctx pre Hstable (start d))).
      cbn [option_map outcome phase polls].
      rewrite (polls_fold d ctx pre (start d) Hp). reflexivity. }
    split; [exact (Hpre [] eq_refl)|split; [exact Hpre|exact Hstate]]. }
  pose proof (Hdriver _ DisableAzureMonitorPoller_PollerType
                (NewDisableAzureMonitorPoller c id)) as HA.
  pose proof (Hdriver _ DisableMonitoringPoller_PollerType
                (NewDisableMonitoringPoller c id)) as HM.
  cbn [Poll DisableAzureMonitorPoller_PollerType DisableMonitoringPoller_PollerType]
    in HA, HM.
  specialize (fun e => HA e (fun q t => DisableAzureMonitorPoller_Poll_receiver q ctx t)).
  specialize (fun e => HM e (fun q t => DisableMonitoringPoller_Poll_receiver q ctx t)).
  revert HA HM.
  unfold DisableAzureMonitorPoller.Poll, DisableMonitoringPoller.Poll,
         NewDisableAzureMonitorPoller, NewDisableMonitoringPoller.
  cbn [DisableAzureMonitorPoller.client DisableAzureMonitorPoller.clusterId
       DisableMonitoringPoller.client DisableMonitoringPoller.clusterId].
  destruct (GetMonitoringStatus tr c ctx id) as [resp [err|]]; cbn [fst snd] in *;
    intros HA HM.
  - split; eexists; (split; [reflexivity | discriminate]).
  - destruct H as [Hm | (m & Hm & Hf)]; revert HA HM; rewrite Hm; [|rewrite Hf];
      intros HA HM;
      (split; eexists; (split; [reflexivity | intros _])).
    + apply HA; reflexivity.
    + apply HM; reflexivity.
    + apply HA; reflexivity.
    + apply HM; reflexivity.
Qed.

End PollersUnderDriver.

(** * The theorems at concrete replies *)

Import Sample.

(** The flag is [false]: both pollers report [Succeeded]. *)
Lemma Poll_status_follows_flag_witness :
  (exists r : PollResult nat unit,
      snd (DisableAzureMonitorPoller.Poll azureMonitor tt (respond (flag false)))
        = (Some r, None)
      /\ (Status r = PollingStatusSucceeded <-> false = false)
      /\ (Status r = PollingStatusInProgress <-> false = true))
  /\
  (exists r : PollResult nat unit,
      snd (DisableMonitoringPoller.Poll monitoring tt (respond (flag false)))
        = (Some r, None)
      /\ (Status r = PollingStatusSucceeded <-> false = false)
      /\ (Status r = PollingStatusInProgress <-> false = true)).
Proof.
  exact (Poll_status_follows_flag "client" "cluster1" tt (respond (flag false))
           (ok false) _ false eq_refl eq_refl eq_refl).
Defined.

(** A body without the flag, met by a driver of allowance 3 on its first
    poll, and on its third, after a poll in progress and a failed query that
    is being retried. *)
Lemma Poll_missing_field_is_fatal_witness :
  (exists e,
      snd (DisableAzureMonitorPoller.Poll azureMonitor tt (respond noFlag)) = (None, Some e)
      /\ PollUntilDone (NewPoller azureMonitor (10 * Second)%Z 3%Z) tt
                       [Answer (respond noFlag); Answer (respond (flag false))]
         = Some {| returned := Some (MalformedResponseError (Some e)); pollsIssued := 1 |}
      /\ PollUntilDone (NewPoller azureMonitor (10 * Second)%Z 3%Z) tt
                       ([Answer (respond (flag true)); Answer (refuse "connection reset")]
                          ++ [Answer (respond noFlag); Answer (respond (flag false))])
         = Some {| returned := Some (MalformedResponseError (Some e)); pollsIssued := 3 |})
  /\
  (exists e,
      snd (DisableMonitoringPoller.Poll monitoring tt (respond noFlag)) = (None, Some e)
      /\ PollUntilDone (NewPoller monitoring (10 * Second)%Z 3%Z) tt
                       [Answer (respond noFlag); Answer (respond (flag false))]
         = Some {| returned := Some (MalformedResponseError (Some e)); pollsIssued := 1 |}
      /\ PollUntilDone (NewPoller monitoring (10 * Second)%Z 3%Z) tt
                       ([Answer (respond (flag true)); Answer (refuse "connection reset")]
                          ++ [Answer (respond noFlag); Answer (respond (flag false))])
         = Some {| returned := Some (MalformedResponseError (Some e)); pollsIssued := 3 |}).
Proof.
  destruct (Poll_missing_field_is_fatal "client" "cluster1" tt (respond noFlag)
              (10 * Second)%Z 3%Z [Answer (respond (flag false))]
              (or_intror (ex_intro _ {| ClusterMonitoringEnabled := None;
                                        WorkspaceId := None |}
                                   (conj eq_refl eq_refl))))
    as [(eA & HA & DA) (eM & HM & DM)].
  destruct (DA eq_refl) as (A1 & A2 & _).
  destruct (DM eq_refl) as (M1 & M2 & _).
  split.
  - exists eA. split; [exact HA|]. split; [exact A1|].
    exact (A2 [Answer (respond (flag true)); Answer (refuse "connection reset")] eq_refl).
  - exists eM. split; [exact HM|]. split; [exact M1|].
    exact (M2 [Answer (respond (flag true)); Answer (refuse "connection reset")] eq_refl).
Defined.

(** Two polls in progress, then success, under the driver that
    [disableHDInsightMonitoring] builds. *)
Lemma PollUntilDone_succeeds_after_N_polls_witness :
  PollUntilDone (disableHDInsightMonitoring_poller 3%Z "client" "cluster1") tt
                (map Answer [respond (flag true); respond (flag true)]
                   ++ Answer (respond (flag false)) :: [])
    = Some {| returned := None; pollsIssued := 3 |}.
Proof.
  apply (PollUntilDone_succeeds_after_N_polls
           (disableHDInsightMonitoring_poller 3%Z "client" "cluster1") tt
           [respond (flag true); respond (flag true)] (respond (flag false)) []
           monitoring monitoring
           {| PollResult_HttpResponse :=
                Some {| Response_OData := None; Response_Response := Some 200 |};
              PollInterval := (10 * Second)%Z;
              Status := PollingStatusSucceeded |});
    reflexivity.
Defined.

(** A refused query. *)
Lemma Poll_query_error_witness :
  snd (DisableAzureMonitorPoller.Poll azureMonitor tt (refuse "connection reset"))
    = (None, Some (Errorf2 "retrieving Azure Monitor Status for %s: %+v" "cluster1"
                           (errorString "connection reset")))
  /\
  snd (DisableMonitoringPoller.Poll monitoring tt (refuse "connection reset"))
    = (None, Some (Errorf2 "retrieving Monitoring Status for %s: %+v" "cluster1"
                           (errorString "connection reset"))).
Proof.
  exact (Poll_query_error "client" "cluster1" tt (refuse "connection reset")
           failed (errorString "connection reset") eq_refl).
Defined.

(** The result for a flag still [true]. *)
Lemma Poll_interval_ten_seconds_witness :
  fst (snd (DisableMonitoringPoller.Poll monitoring tt (respond (flag true))))
    = Some inProgressResult
  /\ PollInterval inProgressResult = (10 * Second)%Z
  /\ PollInterval inProgressResult = 10000000000%Z.
Proof.
  split; [reflexivity|].
  apply (Poll_interval_ten_seconds "client" "cluster1" tt (respond (flag true))
           inProgressResult).
  right. reflexivity.
Defined.

(** Three refused queries in a row under allowance 2; and a result met
    with two failures counted. *)
Lemma PollUntilDone_three_failures_witness :
  PollUntilDone (NewPoller monitoring (10 * Second)%Z 2%Z) tt
                [Answer (refuse "a"); Answer (refuse "b"); Answer (refuse "c");
                 Answer (respond (flag false))]
    = Some {| returned :=
                Some (TimeoutExceededError
                        (Errorf2 "retrieving Monitoring Status for %s: %+v" "cluster1"
                                 (errorString "c")));
              pollsIssued := 3 |}
  /\ failures (step (NewPoller monitoring (10 * Second)%Z 2%Z) tt
                    {| phase := Polling; op := monitoring; interval := (10 * Second)%Z;
                       failures := 2%Z; polls := 2 |}
                    (Answer (respond (flag true)))) = 0%Z.
Proof.
  apply (PollUntilDone_three_failures (NewPoller monitoring (10 * Second)%Z 2%Z) tt
           (refuse "a") (refuse "b") (refuse "c") [Answer (respond (flag false))]
           monitoring monitoring monitoring None None None
           (Errorf2 "retrieving Monitoring Status for %s: %+v" "cluster1" (errorString "a"))
           (Errorf2 "retrieving Monitoring Status for %s: %+v" "cluster1" (errorString "b"))
           (Errorf2 "retrieving Monitoring Status for %s: %+v" "cluster1" (errorString "c"))
           {| phase := Polling; op := monitoring; interval := (10 * Second)%Z;
              failures := 2%Z; polls := 2 |}
           (respond (flag true)) monitoring
           {| PollResult_HttpResponse :=
                Some {| Response_OData := None; Response_Response := Some 200 |};
              PollInterval := (10 * Second)%Z;
              Status := PollingStatusInProgress |});
    reflexivity.
Defined.

(** Cancelled during the wait after a poll in progress and a failed query
    that is being retried, with a reply that would have reported success
    lined up behind. *)
Lemma PollUntilDone_cancelled_witness :
  PollUntilDone (disableHDInsightAzureMonitor_poller 3%Z "client" "cluster1") tt
                ([Answer (respond (flag true)); Answer (refuse "connection reset")]
                   ++ Cancel :: [Answer (respond (flag false))])
    = Some {| returned := Some CancellationError; pollsIssued := 2 |}.
Proof.
  exact (proj1 (PollUntilDone_cancelled
                  (disableHDInsightAzureMonitor_poller 3%Z "client" "cluster1") tt
                  [Answer (respond (flag true)); Answer (refuse "connection reset")]
                  [Answer (respond (flag false))] eq_refl)).
Defined.

(** Two remote sides that give the same answer to the query. *)
Lemma Poll_variants_agree_witness :
  fst (snd (DisableAzureMonitorPoller.Poll azureMonitor tt (respond noFlag)))
    = fst (snd (DisableMonitoringPoller.Poll monitoring tt (respond noFlag)))
  /\ equalUpToText
       (snd (snd (DisableAzureMonitorPoller.Poll azureMonitor tt (respond noFlag))))
       (snd (snd (DisableMonitoringPoller.Poll monitoring tt (respond noFlag))))
  /\ DisableAzureMonitorPoller.Poll azureMonitor tt
       {| GetMonitoringStatus := fun _ _ _ => (ok true, None) |}
     = DisableAzureMonitorPoller.Poll azureMonitor tt (respond (flag true))
  /\ DisableMonitoringPoller.Poll monitoring tt
       {| GetMonitoringStatus := fun _ _ _ => (ok true, None) |}
     = DisableMonitoringPoller.Poll monitoring tt (respond (flag true)).
Proof.
  destruct (Poll_variants_agree "client" "cluster1" tt (respond noFlag) (respond noFlag)
              eq_refl) as (H1 & H2 & _).
  destruct (Poll_variants_agree "client" "cluster1" tt (respond (flag true))
              {| GetMonitoringStatus := fun _ _ _ => (ok true, None) |}
              eq_refl) as (_ & _ & H3 & H4).
  repeat split; assumption.
Defined.


(** * The scenarios of the specification, evaluated *)

(** The two pollers word the same failure differently. *)
Example Error_text_differs :
  option_map (Error (fun id => id))
             (snd (snd (DisableAzureMonitorPoller.Poll azureMonitor tt (respond noFlag))))
    = Some "retrieving Azure Monitor Status for cluster1: `model.ClusterMonitoringEnabled` was nil"
  /\ option_map (Error (fun id => id))
                (snd (snd (DisableMonitoringPoller.Poll monitoring tt (respond noFlag))))
    = Some "retrieving Monitoring Status for cluster1: `model.ClusterMonitoringEnabled` was nil"
  /\ option_map (Error (fun id => id))
                (snd (snd (DisableMonitoringPoller.Poll monitoring tt (refuse "connection reset"))))
    = Some "retrieving Monitoring Status for cluster1: connection reset".
Proof.
  repeat split; reflexivity.
Qed.

(** Two failed queries, a poll in progress, two more failed queries: the
    driver is still polling, since the failures never reached three in a
    row; a third failure in a row then ends the run at the sixth poll. *)
Example failures_counted_in_a_row :
  PollUntilDone (NewPoller monitoring (10 * Second)%Z 2%Z) tt
                [Answer (refuse "a"); Answer (refuse "b"); Answer (respond (flag true));
                 Answer (refuse "c"); Answer (refuse "d")]
    = None
  /\ PollUntilDone (NewPoller monitoring (10 * Second)%Z 2%Z) tt
                   [Answer (refuse "a"); Answer (refuse "b"); Answer (respond (flag true));
                    Answer (refuse "c"); Answer (refuse "d"); Answer (refuse "e")]
    = Some {| returned :=
                Some (TimeoutExceededError
                        (Errorf2 "retrieving Monitoring Status for %s: %+v" "cluster1"
                                 (errorString "e")));
              pollsIssued := 6 |}.
Proof.
  split; reflexivity.
Qed.

(** A body without the flag met on the second poll, and a cancellation found
    while a failed query is being retried: the run ends there, though the
    reply lined up behind would have reported success. *)
Example ends_where_it_falls :
  PollUntilDone (NewPoller monitoring (10 * Second)%Z 2%Z) tt
                [Answer (respond (flag true)); Answer (respond noFlag);
                 Answer (respond (flag false))]
    = Some {| returned :=
                Some (MalformedResponseError
                        (Some (Errorf1 "retrieving Monitoring Status for %s: `model.ClusterMonitoringEnabled` was nil"
                                       "cluster1")));
              pollsIssued := 2 |}
  /\ PollUntilDone (NewPoller monitoring (10 * Second)%Z 2%Z) tt
                   [Answer (refuse "a"); Cancel; Answer (respond (flag false))]
    = Some {| returned := Some CancellationError; pollsIssued := 1 |}.
Proof.
  split; reflexivity.
Qed.

(** While the remote side has answered with polls in progress only, the
    driver has not returned. *)
Example still_polling :
  PollUntilDone (NewPoller monitoring (10 * Second)%Z 2%Z) tt
                [Answer (respond (flag true)); Answer (respond (flag true))]
    = None.
Proof.
  reflexivity.
Qed.

(** * Properties of the expand and flatten functions *)

(** ** Maps *)

Lemma mapGet_mapSet_same {V : Type} (m : gomap V) (k : string) (v : V) :
  mapGet (mapSet m k v) k = Some v.
Proof.
  induction m as [|[k' v'] m IH]; cbn.
  - rewrite String.eqb_refl. reflexivity.
  - destruct (String.eqb_spec k' k) as [->|Hne]; cbn.
    + rewrite String.eqb_refl. reflexivity.
    + destruct (String.eqb_spec k' k); [contradiction|]. exact IH.
Qed.

Lemma mapGet_mapSet_other {V : Type} (m : gomap V) (k k' : string) (v : V) :
  k' <> k ->
  mapGet (mapSet m k' v) k = mapGet m k.
Proof.
  intros Hne. induction m as [|[k1 v1] m IH]; cbn.
  - destruct (String.eqb_spec k' k); [contradiction|reflexivity].
  - destruct (String.eqb_spec k1 k') as [->|Hne1]; cbn.
    + destruct (String.eqb_spec k' k); [contradiction|reflexivity].
    + destruct (String.eqb_spec k1 k); [reflexivity|exact IH].
Qed.

Lemma mapGet_absent {V : Type} (m : gomap V) (k : string) :
  ~ In k (map fst m) -> mapGet m k = None.
Proof.
  induction m as [|[k' v'] m IH]; cbn; intros H; [reflexivity|].
  destruct (String.eqb_spec k' k) as [->|Hne]; [tauto|]. apply IH. tauto.
Qed.

(** The copying loop: afterwards a key holds what the source had for it,
    and otherwise what the destination already had. *)
Lemma mapGet_mapRange {V : Type} (src : gomap V) :
  forall (dst : gomap V) (k : string),
    NoDup (map fst src) ->
    mapGet (mapRange dst src) k
      = match mapGet src k with
        | Some v => Some v
        | None => mapGet dst k
        end.
Proof.
  induction src as [|[k1 v1] src IH]; intros dst k Hnd; [reflexivity|].
  cbn [map fst] in Hnd. apply NoDup_cons_iff in Hnd as [Hnotin Hnd].
  unfold mapRange in *. cbn [fold_left fst snd mapGet].
  rewrite (IH _ k Hnd).
  destruct (String.eqb_spec k1 k) as [->|Hne].
  - rewrite (mapGet_absent src k Hnotin). apply mapGet_mapSet_same.
  - destruct (mapGet src k); [reflexivity|]. apply mapGet_mapSet_other. exact Hne.
Qed.

(** ** Monitoring *)

Section MonitoringProperties.

Variable pointer_From : option string -> string.

(** X1.  [flattenHDInsightMonitoring] returns one block when the response is
    there with its flag set to [true], and no block in every other case: a
    nil response, a nil flag, a flag that is [false]. *)
Theorem flattenHDInsightMonitoring_one_block_iff_enabled
    (input : option ClusterMonitoringResponse) :
  (length (flattenHDInsightMonitoring pointer_From input) = 1
   <-> exists m, input = Some m /\ ClusterMonitoringEnabled m = Some true)
  /\
  (flattenHDInsightMonitoring pointer_From input = []
   <-> ~ exists m, input = Some m /\ ClusterMonitoringEnabled m = Some true).
Proof.
  unfold flattenHDInsightMonitoring.
  destruct input as [[[[|]|] ws]|]; cbn; unfold not; repeat split; intros;
    try reflexivity; try discriminate;
    try (eexists; split; reflexivity);
    try match goal with
        | H : _ -> False |- _ => exfalso; apply H; eexists; split; reflexivity
        end;
    repeat match goal with
           | H : exists _, _ |- _ => destruct H as (m & Hm & He)
           end;
    try discriminate Hm; injection Hm as <-; discriminate He.
Qed.

(** X2.  Every block [flattenHDInsightMonitoring] returns holds the primary
    key as five asterisks, the workspace id as [pointer.From] gives it for
    the response, and no other key. *)
Theorem flattenHDInsightMonitoring_masks_key
    (input : option ClusterMonitoringResponse) (block : gomap string) :
  In block (flattenHDInsightMonitoring pointer_From input) ->
  mapGet block "primary_key" = Some "*****"
  /\ (exists m, input = Some m
        /\ mapGet block "log_analytics_workspace_id" = Some (pointer_From (WorkspaceId m)))
  /\ (forall k, k <> "primary_key" -> k <> "log_analytics_workspace_id" ->
                mapGet block k = None).
Proof.
  unfold flattenHDInsightMonitoring.
  destruct input as [[[[|]|] ws]|]; cbn; intros H; try contradiction.
  destruct H as [<-|[]]. split; [reflexivity|]. split.
  - eexists. split; reflexivity.
  - intros k H1 H2. cbn [mapGet].
    destruct (String.eqb_spec "log_analytics_workspace_id" k); [congruence|].
    destruct (String.eqb_spec "primary_key" k); [congruence|]. reflexivity.
Qed.

(** X3.  [flattenHDInsightAzureMonitor] returns what
    [flattenHDInsightMonitoring] returns for the response with the same
    flag and workspace id. *)
Theorem flattenHDInsightAzureMonitor_as_Monitoring
    (input : option AzureMonitorResponse.t) :
  flattenHDInsightAzureMonitor pointer_From input
    = flattenHDInsightMonitoring pointer_From
        (option_map
           (fun a => {| ClusterMonitoringEnabled :=
                          AzureMonitorResponse.ClusterMonitoringEnabled a;
                        WorkspaceId := AzureMonitorResponse.WorkspaceId a |})
           input).
Proof.
  destruct input as [[[[|]|] ws]|]; reflexivity.
Qed.

(** X4.  On a reply that came without error, the status the disable pollers
    return and the block list read back from the same reply go together:
    [Succeeded] exactly when [flattenHDInsightMonitoring] finds no block in
    the reply's model, [InProgress] exactly when it finds one. *)
Theorem Poll_Succeeded_iff_no_monitor_block
    {ExtensionsClient ClusterId context_Context http_Response odata_OData : Type}
    (c : ExtensionsClient) (id : ClusterId) (ctx : context_Context)
    (tr : Transport ExtensionsClient ClusterId context_Context http_Response odata_OData)
    (resp : GetMonitoringStatusOperationResponse http_Response odata_OData)
    (r : PollResult http_Response odata_OData) :
  GetMonitoringStatus tr c ctx id = (resp, None) ->
  fst (snd (DisableMonitoringPoller.Poll (NewDisableMonitoringPoller c id) ctx tr)) = Some r
  \/ fst (snd (DisableAzureMonitorPoller.Poll (NewDisableAzureMonitorPoller c id) ctx tr))
     = Some r ->
  (Status r = PollingStatusSucceeded
   <-> flattenHDInsightMonitoring pointer_From (Model resp) = [])
  /\
  (Status r = PollingStatusInProgress
   <-> length (flattenHDInsightMonitoring pointer_From (Model resp)) = 1).
Proof.
  intros Hq.
  unfold DisableAzureMonitorPoller.Poll, DisableMonitoringPoller.Poll,
         NewDisableAzureMonitorPoller, NewDisableMonitoringPoller,
         flattenHDInsightMonitoring.
  cbn [DisableAzureMonitorPoller.client DisableAzureMonitorPoller.clusterId
       DisableMonitoringPoller.client DisableMonitoringPoller.clusterId].
  rewrite Hq.
  destruct (Model resp) as [[[[|]|] ws]|]; cbn;
    intros [H|H]; try discriminate H; injection H as <-; cbn;
    repeat split; intros; (reflexivity || discriminate).
Qed.

End MonitoringProperties.

(** ** Metastores *)

Section MetastoreProperties.

Variable ExpandHDInsightsHiveMetastore : list value -> may_panic (gomap value).
Variable ExpandHDInsightsOozieMetastore : list value -> may_panic (gomap value).
Variable ExpandHDInsightsAmbariMetastore : list value -> may_panic (gomap value).

(** X5.  [expandHDInsightsMetastore] panics exactly in these cases: the
    first element of its input is neither nil nor a map; or, in that map,
    ["hive"], ["oozie"] or ["ambari"] is present and is not a list; or the
    expander called on one of these lists panics.  An empty input, a nil
    first element and missing sections do not make it panic. *)
Theorem expandHDInsightsMetastore_panics_iff_ill_typed (input : list value) :
  expandHDInsightsMetastore ExpandHDInsightsHiveMetastore
    ExpandHDInsightsOozieMetastore ExpandHDInsightsAmbariMetastore input
    = Panicked
  <-> match input with
      | [] => False
      | VNil :: _ => False
      | VMap v :: _ =>
          sectionReturns ExpandHDInsightsHiveMetastore v "hive"
          && sectionReturns ExpandHDInsightsOozieMetastore v "oozie"
          && sectionReturns ExpandHDInsightsAmbariMetastore v "ambari"
            = false
      | _ :: _ => True
      end.
Proof.
  unfold expandHDInsightsMetastore, sectionReturns.
  destruct input as [|[| | | | |v] rest]; cbn [asMap bind];
    try (split; [intros H; discriminate H | intros []]);
    try (split; [intros _; exact I | reflexivity]).
  destruct (mapGet v "hive") as [[| | | | lh |]|];
    destruct (mapGet v "oozie") as [[| | | | lo |]|];
    destruct (mapGet v "ambari") as [[| | | | la |]|];
    cbn [asList bind andb];
    try destruct (ExpandHDInsightsHiveMetastore lh);
    cbn [asList bind andb];
    try destruct (ExpandHDInsightsOozieMetastore lo);
    cbn [asList bind andb];
    try destruct (ExpandHDInsightsAmbariMetastore la);
    cbn [asList bind andb];
    split; intros H; (reflexivity || discriminate H).
Qed.

(** X6.  When [expandHDInsightsMetastore] returns a configuration for a map
    block, a key holds in it what the ambari section gives for that key,
    else what the oozie section gives, else what the hive section gives:
    every entry of every section present is carried over, and on a key that
    two sections share the later section wins. *)
Theorem expandHDInsightsMetastore_lookup
    (v : gomap value) (rest : list value) (config : gomap value) (k : string) :
  (forall l m, ExpandHDInsightsHiveMetastore l = Return m -> NoDup (map fst m)) ->
  (forall l m, ExpandHDInsightsOozieMetastore l = Return m -> NoDup (map fst m)) ->
  (forall l m, ExpandHDInsightsAmbariMetastore l = Return m -> NoDup (map fst m)) ->
  expandHDInsightsMetastore ExpandHDInsightsHiveMetastore
    ExpandHDInsightsOozieMetastore ExpandHDInsightsAmbariMetastore
    (VMap v :: rest) = Return config ->
  mapGet config k
    = match mapGet (metastoreSection ExpandHDInsightsAmbariMetastore v "ambari") k with
      | Some x => Some x
      | None =>
          match mapGet (metastoreSection ExpandHDInsightsOozieMetastore v "oozie") k with
          | Some x => Some x
          | None => mapGet (metastoreSection ExpandHDInsightsHiveMetastore v "hive") k
          end
      end.
Proof.
  intros Hh Ho Ha.
  unfold expandHDInsightsMetastore, metastoreSection. cbn [asMap bind].
  destruct (mapGet v "hive") as [[| | | | lh |]|];
    destruct (mapGet v "oozie") as [[| | | | lo |]|];
    destruct (mapGet v "ambari") as [[| | | | la |]|];
    cbn [asList bind]; try discriminate;
    try (destruct (ExpandHDInsightsHiveMetastore lh) as [mh|] eqn:Eh;
         [apply Hh in Eh|]);
    cbn [asList bind]; try discriminate;
    try (destruct (ExpandHDInsightsOozieMetastore lo) as [mo|] eqn:Eo;
         [apply Ho in Eo|]);
    cbn [asList bind]; try discriminate;
    try (destruct (ExpandHDInsightsAmbariMetastore la) as [ma|] eqn:Ea;
         [apply Ha in Ea|]);
    cbn [asList bind]; try discriminate;
    intros H; injection H as <-;
    repeat (rewrite mapGet_mapRange by assumption); cbn [mapGet];
    repeat match goal with
           | |- context [match mapGet ?m k with _ => _ end] => destruct (mapGet m k)
           end; reflexivity.
Qed.

Variable FlattenHDInsightsHiveMetastore : gomap string -> gomap string -> value.
Variable FlattenHDInsightsOozieMetastore : gomap string -> gomap string -> value.
Variable FlattenHDInsightsAmbariMetastore : gomap string -> value.
Variable ResourceData : Type.
Variable ResourceData_Set : ResourceData -> string -> value -> ResourceData.

(** X7.  [flattenHDInsightsMetastores] writes a metastore only for a
    complete group of configurations: hive needs both [hive-env] and
    [hive-site], oozie both [oozie-env] and [oozie-site], ambari its
    [ambari-conf].  With no complete group the resource data is left as it
    was; otherwise the one attribute set is ["metastores"], to a single block
    holding exactly the complete groups. *)
Theorem flattenHDInsightsMetastores_complete_groups_only
    (d : ResourceData) (configurations : gomap (gomap string)) :
  let hive :=
    match mapGet configurations "hive-env", mapGet configurations "hive-site" with
    | Some env, Some site => Some (FlattenHDInsightsHiveMetastore env site)
    | _, _ => None
    end in
  let oozie :=
    match mapGet configurations "oozie-env", mapGet configurations "oozie-site" with
    | Some env, Some site => Some (FlattenHDInsightsOozieMetastore env site)
    | _, _ => None
    end in
  let ambari := option_map FlattenHDInsightsAmbariMetastore
                           (mapGet configurations "ambari-conf") in
  (hive = None /\ oozie = None /\ ambari = None ->
   flattenHDInsightsMetastores FlattenHDInsightsHiveMetastore
     FlattenHDInsightsOozieMetastore FlattenHDInsightsAmbariMetastore
     ResourceData_Set d configurations = d)
  /\
  (~ (hive = None /\ oozie = None /\ ambari = None) ->
   exists result,
     flattenHDInsightsMetastores FlattenHDInsightsHiveMetastore
     FlattenHDInsightsOozieMetastore FlattenHDInsightsAmbariMetastore
     ResourceData_Set d configurations
       = ResourceData_Set d "metastores" (VList [VMap result])
     /\ mapGet result "hive" = hive
     /\ mapGet result "oozie" = oozie
     /\ mapGet result "ambari" = ambari
     /\ forall k, k <> "hive" -> k <> "oozie" -> k <> "ambari" -> mapGet result k = None).
Proof.
  unfold flattenHDInsightsMetastores.
  destruct (mapGet configurations "hive-env") as [he|];
    destruct (mapGet configurations "hive-site") as [hs|];
    destruct (mapGet configurations "oozie-env") as [oe|];
    destruct (mapGet configurations "oozie-site") as [os|];
    destruct (mapGet configurations "ambari-conf") as [ac|];
    cbn; (split; [intros (H1 & H2 & H3); try discriminate; reflexivity | intros Hn]);
    try (exfalso; apply Hn; repeat split; reflexivity);
    (eexists; split; [reflexivity|]; repeat split;
     intros k K1 K2 K3; cbn [mapGet];
     repeat match goal with
            | |- context [String.eqb ?a k] => destruct (String.eqb_spec a k); [congruence|]
            end; reflexivity).
Qed.

End MetastoreProperties.

(** ** Roles *)

Lemma holdsList_index (v : gomap value) (k : string) :
  holdsList v k = true -> exists l, index v k = VList l.
Proof.
  unfold holdsList, index. destruct (mapGet v k) as [[]|]; try discriminate.
  intros _. eexists. reflexivity.
Qed.

Lemma index_holdsList (v : gomap value) (k : string) (l : list value) :
  index v k = VList l -> holdsList v k = true.
Proof.
  unfold holdsList, index. destruct (mapGet v k) as [[]|]; try discriminate.
  reflexivity.
Qed.

Section RoleProperties.

Variables HDInsightNodeDefinition Role cause ResourceData : Type.
Variable ExpandHDInsightNodeDefinition :
  string -> list value -> HDInsightNodeDefinition -> option Role * option cause.
Variable FindHDInsightRole : option (list Role) -> string -> option Role.
Variable FlattenHDInsightNodeDefinition :
  option Role -> list value -> HDInsightNodeDefinition -> list value.
Variable ResourceData_Get : ResourceData -> string -> value.

(** Splits on what the next type assertion, node expansion or optional
    definition of [expandHDInsightRoles] gives. *)
Ltac next_step :=
  match goal with
  | |- context [asList (index ?v ?k)] =>
      let E := fresh "I" in destruct (index v k) as [| | | | ?l |] eqn:E; cbn [asList bind]
  | |- context [ExpandHDInsightNodeDefinition ?a ?b ?c] =>
      let E := fresh "E" in
      destruct (ExpandHDInsightNodeDefinition a b c) as [[?r|] [?e|]] eqn:E;
      cbn [deref bind]
  | |- context [match ?l with [] => _ | _ :: _ => _ end] => destruct l; cbn [length Nat.eqb negb]
  | |- context [(length ?l =? 0)%nat] => destruct l; cbn [length Nat.eqb negb]
  end.

Ltac open_expand definition :=
  unfold expandHDInsightRoles;
  destruct definition as [hd wd zd [kd|] [ed|]];
  cbn [HeadNodeDef WorkerNodeDef ZookeeperNodeDef KafkaManagementNodeDef EdgeNodeDef].

(** The well-typed case: no panic. *)
Lemma expandHDInsightRoles_returns
    (v : gomap value) (rest : list value)
    (definition : hdInsightRoleDefinition HDInsightNodeDefinition) :
  (forall name raw def, ExpandHDInsightNodeDefinition name raw def <> (None, None)) ->
  holdsList v "head_node" = true ->
  holdsList v "worker_node" = true ->
  holdsList v "zookeeper_node" = true ->
  (EdgeNodeDef definition <> None -> holdsList v "edge_node" = true) ->
  (KafkaManagementNodeDef definition <> None ->
   holdsList v "kafka_management_node" = true) ->
  exists out, expandHDInsightRoles ExpandHDInsightNodeDefinition (VMap v :: rest) definition
              = Return out.
Proof.
  intros Htotal Hh Hw Hz He Hk.
  apply holdsList_index in Hh as [lh Hh], Hw as [lw Hw], Hz as [lz Hz].
  open_expand definition; cbn [asMap bind]; rewrite Hh; cbn [asList bind].
  all: try (destruct (holdsList_index _ _ (He ltac:(discriminate))) as [le Hedge]).
  all: try (destruct (holdsList_index _ _ (Hk ltac:(discriminate))) as [lk Hkafka]).
  all: repeat first
         [ rewrite Hw | rewrite Hz | rewrite Hedge | rewrite Hkafka
         | progress cbn [asList bind deref]
         | match goal with
           | |- context [ExpandHDInsightNodeDefinition ?a ?b ?c] =>
               let E := fresh "E" in
               destruct (ExpandHDInsightNodeDefinition a b c) as [[?r|] [?e|]] eqn:E;
               [ | | | exfalso; exact (Htotal _ _ _ E) ]
           | |- context [(length ?l =? 0)%nat] =>
               destruct l; cbn [length Nat.eqb negb]
           end ].
  all: eexists; reflexivity.
Qed.

(** X8.  [expandHDInsightRoles] returns roles or an error, never both and
    never neither; and an error it returns is the error of one node
    expansion, wrapped under the format that names that node's block. *)
Theorem expandHDInsightRoles_error_is_a_node_error
    (input : list value) (definition : hdInsightRoleDefinition HDInsightNodeDefinition)
    (r : option (list Role)) (e : option (roleError cause)) :
  expandHDInsightRoles ExpandHDInsightNodeDefinition input definition = Return (r, e) ->
  (r = None <-> e <> None)
  /\ (forall wrapped, e = Some wrapped ->
      exists format name raw def x err,
        ExpandHDInsightNodeDefinition name raw def = (x, Some err)
        /\ wrapped = Errorf_v format err
        /\ In (name, format)
              [("headnode", "expanding `head_node`: %+v");
               ("workernode", "expanding `worker_node`: %+v");
               ("zookeepernode", "expanding `zookeeper_node`: %+v");
               ("edgenode", "expanding `edge_node`: %+v");
               ("kafkamanagementnode", "expanding `kafka_management_node`: %+v")]).
Proof.
  open_expand definition; destruct input as [|[| | | | |v] rest];
    cbn [asMap bind]; try discriminate; repeat next_step;
    intros H; try discriminate H; injection H as <- <-;
    (split;
     [ split; intros HH; try reflexivity; try discriminate;
       try (exfalso; apply HH; reflexivity)
     | intros wrapped Hw; try discriminate Hw;
       (injection Hw as <-; do 6 eexists;
        (split; [eassumption|]); (split; [reflexivity|]);
        cbn [In]; repeat first [left; reflexivity | right]) ]).
Qed.

(** X9.  When [expandHDInsightRoles] returns roles, its input began with a
    map holding lists under ["head_node"], ["worker_node"] and
    ["zookeeper_node"], and the roles are the expansions of these three, in
    this order, followed by the edge node's role when the definition has an
    edge node, and by at most one more, the Kafka management node's, when
    it has one. *)
Theorem expandHDInsightRoles_roles_in_order
    (input : list value) (definition : hdInsightRoleDefinition HDInsightNodeDefinition)
    (roles : list Role) :
  expandHDInsightRoles ExpandHDInsightNodeDefinition input definition
    = Return (Some roles, None) ->
  exists v rest hr wr zr h w z tail,
    input = VMap v :: rest
    /\ index v "head_node" = VList hr
    /\ index v "worker_node" = VList wr
    /\ index v "zookeeper_node" = VList zr
    /\ ExpandHDInsightNodeDefinition "headnode" hr (HeadNodeDef definition) = (Some h, None)
    /\ ExpandHDInsightNodeDefinition "workernode" wr (WorkerNodeDef definition)
       = (Some w, None)
    /\ ExpandHDInsightNodeDefinition "zookeepernode" zr (ZookeeperNodeDef definition)
       = (Some z, None)
    /\ roles = h :: w :: z :: tail
    /\ (match EdgeNodeDef definition with Some _ => 1 | None => 0 end <= length tail)%nat
    /\ (length tail <= match EdgeNodeDef definition with Some _ => 1 | None => 0 end
                       + match KafkaManagementNodeDef definition with
                         | Some _ => 1
                         | None => 0
                         end)%nat.
Proof.
  open_expand definition; destruct input as [|[| | | | |v] rest];
    cbn [asMap bind]; try discriminate; repeat next_step;
    intros H; try discriminate H; injection H as <-;
    do 9 eexists;
    (split; [reflexivity|]); (split; [eassumption|]); (split; [eassumption|]);
    (split; [eassumption|]); (split; [eassumption|]); (split; [eassumption|]);
    (split; [eassumption|]); (split; [reflexivity|]); cbn; lia.
Qed.

(** X10.  A Kafka management block that is present and empty counts as not
    given: the result is the one the same definition without a Kafka
    management node gives. *)
Theorem expandHDInsightRoles_empty_kafka_block
    (v : gomap value) (rest : list value)
    (definition : hdInsightRoleDefinition HDInsightNodeDefinition) :
  index v "kafka_management_node" = VList [] ->
  expandHDInsightRoles ExpandHDInsightNodeDefinition (VMap v :: rest) definition
    = expandHDInsightRoles ExpandHDInsightNodeDefinition (VMap v :: rest)
        {| HeadNodeDef := HeadNodeDef definition;
           WorkerNodeDef := WorkerNodeDef definition;
           ZookeeperNodeDef := ZookeeperNodeDef definition;
           KafkaManagementNodeDef := None;
           EdgeNodeDef := EdgeNodeDef definition |}.
Proof.
  intros Hk. open_expand definition; try reflexivity;
    cbn [asMap bind]; rewrite Hk; cbn [asList bind length Nat.eqb negb];
    reflexivity.
Qed.

(** X11.  With a node expander that returns a role or an error,
    [expandHDInsightRoles] panics only on an ill-typed input: an empty list,
    a first element that is not a map, or a map in which one of the blocks
    the definition calls for is missing or is not a list. *)
Theorem expandHDInsightRoles_panics_only_if_ill_typed
    (input : list value) (definition : hdInsightRoleDefinition HDInsightNodeDefinition) :
  (forall name raw def, ExpandHDInsightNodeDefinition name raw def <> (None, None)) ->
  expandHDInsightRoles ExpandHDInsightNodeDefinition input definition = Panicked ->
  input = []
  \/ (exists x rest, input = x :: rest /\ forall v, x <> VMap v)
  \/ (exists v rest, input = VMap v :: rest
        /\ (holdsList v "head_node" = false
            \/ holdsList v "worker_node" = false
            \/ holdsList v "zookeeper_node" = false
            \/ (EdgeNodeDef definition <> None /\ holdsList v "edge_node" = false)
            \/ (KafkaManagementNodeDef definition <> None
                /\ holdsList v "kafka_management_node" = false))).
Proof.
  intros Htotal Hp.
  destruct input as [|x rest]; [left; reflexivity|right].
  destruct x as [| | | | |v];
    try (left; do 2 eexists; split; [reflexivity | intros v; discriminate]).
  right. exists v, rest. split; [reflexivity|].
  destruct (holdsList v "head_node") eqn:H1; [|tauto].
  destruct (holdsList v "worker_node") eqn:H2; [|tauto].
  destruct (holdsList v "zookeeper_node") eqn:H3; [|tauto].
  destruct (holdsList v "edge_node") eqn:H4;
    destruct (holdsList v "kafka_management_node") eqn:H5;
    destruct (EdgeNodeDef definition) as [ed|] eqn:He;
    destruct (KafkaManagementNodeDef definition) as [kd|] eqn:Hk;
    try (right; right; right; left; split; [discriminate|reflexivity]);
    try (right; right; right; right; split; [discriminate|reflexivity]);
    exfalso;
    (destruct (expandHDInsightRoles_returns v rest definition Htotal H1 H2 H3)
       as [out Hout];
     [ rewrite He; intros; (reflexivity || congruence)
     | rewrite Hk; intros; (reflexivity || congruence)
     | congruence ]).
Qed.

(** X12.  [flattenHDInsightRoles] returns no block for a nil profile or nil
    roles, without reading the resource data; otherwise, when it returns,
    it returns one map that holds a list under ["head_node"],
    ["worker_node"] and ["zookeeper_node"], under ["edge_node"] exactly when
    the definition has an edge node, and under ["kafka_management_node"]
    exactly when it has a Kafka management node. *)
Theorem flattenHDInsightRoles_block
    (d : ResourceData) (input : option (ComputeProfile Role))
    (definition : hdInsightRoleDefinition HDInsightNodeDefinition) (out : list value) :
  flattenHDInsightRoles FindHDInsightRole FlattenHDInsightNodeDefinition ResourceData_Get
                        d input definition = Return out ->
  match input with
  | None => out = []
  | Some profile =>
      match Roles profile with
      | None => out = []
      | Some _ =>
          exists result,
            out = [VMap result]
            /\ holdsList result "head_node" = true
            /\ holdsList result "worker_node" = true
            /\ holdsList result "zookeeper_node" = true
            /\ holdsList result "edge_node"
               = match EdgeNodeDef definition with Some _ => true | None => false end
            /\ holdsList result "kafka_management_node"
               = match KafkaManagementNodeDef definition with
                 | Some _ => true
                 | None => false
                 end
      end
  end.
Proof.
  unfold flattenHDInsightRoles.
  destruct input as [[[roles|]]|]; cbn [Roles];
    try (intros H; injection H as <-; reflexivity).
  destruct definition as [hd wd zd [kd|] [ed|]];
    cbn [HeadNodeDef WorkerNodeDef ZookeeperNodeDef KafkaManagementNodeDef EdgeNodeDef];
    destruct (ResourceData_Get d "roles") as [| | | |existingVs|];
    cbn [asList bind]; try discriminate;
    (destruct existingVs as [|[| | | | |existingV] tl];
     cbn [length Nat.ltb Nat.leb List.hd asMap bind]; try discriminate);
    repeat next_step;
    intros H; try discriminate H; injection H as <-;
    (eexists; split; [reflexivity|]; repeat split).
Qed.

(** X13.  What [flattenHDInsightRoles] returns for a profile with roles can
    be given back to [expandHDInsightRoles] under the same definition: with
    a node expander that returns a role or an error, the expansion does not
    panic, every block it reads being there as a list. *)
Theorem expandHDInsightRoles_reads_what_flatten_writes
    (d : ResourceData) (roles : list Role)
    (definition : hdInsightRoleDefinition HDInsightNodeDefinition) (out : list value) :
  (forall name raw def, ExpandHDInsightNodeDefinition name raw def <> (None, None)) ->
  flattenHDInsightRoles FindHDInsightRole FlattenHDInsightNodeDefinition ResourceData_Get
                        d (Some {| Roles := Some roles |}) definition = Return out ->
  exists res, expandHDInsightRoles ExpandHDInsightNodeDefinition out definition
              = Return res.
Proof.
  intros Htotal Hf.
  assert (Hshape : exists result,
             out = [VMap result]
             /\ holdsList result "head_node" = true
             /\ holdsList result "worker_node" = true
             /\ holdsList result "zookeeper_node" = true
             /\ (EdgeNodeDef definition <> None -> holdsList result "edge_node" = true)
             /\ (KafkaManagementNodeDef definition <> None ->
                 holdsList result "kafka_management_node" = true)).
  { revert Hf. unfold flattenHDInsightRoles. cbn [Roles].
    destruct definition as [hd wd zd [kd|] [ed|]];
      cbn [HeadNodeDef WorkerNodeDef ZookeeperNodeDef KafkaManagementNodeDef EdgeNodeDef];
      destruct (ResourceData_Get d "roles") as [| | | |existingVs|];
      cbn [asList bind]; try discriminate;
      (destruct existingVs as [|[| | | | |existingV] tl];
       cbn [length Nat.ltb Nat.leb List.hd asMap bind]; try discriminate);
      repeat next_step;
      intros H; try discriminate H; injection H as <-;
      (eexists; split; [reflexivity|]; repeat split; intros; congruence). }
  destruct Hshape as (result & -> & H1 & H2 & H3 & H4 & H5).
  exact (expandHDInsightRoles_returns result [] definition Htotal H1 H2 H3 H4 H5).
Qed.

End RoleProperties.

(** * The properties at concrete attribute bags *)

Lemma expandNode_total (name : string) (raw : list value) (def : string) :
  SampleBag.expandNode name raw def <> (None, None).
Proof.
  unfold SampleBag.expandNode. destruct raw as [|[| | | | |m] tl]; discriminate.
Qed.

Lemma sample_expanders_NoDup :
  (forall l m, SampleBag.expandHive l = Return m -> NoDup (map fst m))
  /\ (forall l m, SampleBag.expandOozie l = Return m -> NoDup (map fst m))
  /\ (forall l m, SampleBag.expandAmbari l = Return m -> NoDup (map fst m)).
Proof.
  repeat split; intros l m E; try destruct l; try discriminate E;
    injection E as <-; cbn; repeat constructor; cbn; intuition discriminate.
Qed.

(** A panic inside a section expander is a panic of
    [expandHDInsightsMetastore]: the ambari expander of the samples on an
    empty list. *)
Example expandHDInsightsMetastore_callee_panic :
  expandHDInsightsMetastore SampleBag.expandHive SampleBag.expandOozie
    SampleBag.expandAmbari [VMap [("hive", VList []); ("ambari", VList [])]]
    = Panicked
  /\ expandHDInsightsMetastore SampleBag.expandHive SampleBag.expandOozie
       SampleBag.expandAmbari [VMap [("hive", VList []); ("ambari", VList [VString "a"])]]
    = Return [("hive-site", VList []); ("shared", VString "hive");
              ("ambari-conf", VString "a")].
Proof.
  split; reflexivity.
Qed.

Lemma flattenHDInsightMonitoring_masks_key_witness :
  mapGet SampleBag.monitorBlock "primary_key" = Some "*****"
  /\ (exists m, Some SampleBag.enabledResponse = Some m
        /\ mapGet SampleBag.monitorBlock "log_analytics_workspace_id"
           = Some (SampleBag.fromPtr (WorkspaceId m)))
  /\ (forall k, k <> "primary_key" -> k <> "log_analytics_workspace_id" ->
                mapGet SampleBag.monitorBlock k = None).
Proof.
  apply (flattenHDInsightMonitoring_masks_key SampleBag.fromPtr
           (Some SampleBag.enabledResponse) SampleBag.monitorBlock).
  left. reflexivity.
Defined.

Lemma Poll_Succeeded_iff_no_monitor_block_witness :
  (Status inProgressResult = PollingStatusSucceeded
   <-> flattenHDInsightMonitoring SampleBag.fromPtr (Model (ok true)) = [])
  /\
  (Status inProgressResult = PollingStatusInProgress
   <-> length (flattenHDInsightMonitoring SampleBag.fromPtr (Model (ok true))) = 1).
Proof.
  apply (Poll_Succeeded_iff_no_monitor_block SampleBag.fromPtr
           "client" "cluster1" tt (respond (flag true)) (ok true) inProgressResult).
  - reflexivity.
  - left. reflexivity.
Defined.

Lemma expandHDInsightsMetastore_lookup_witness :
  mapGet SampleBag.metastoreConfig "shared" = Some (VString "oozie").
Proof.
  destruct sample_expanders_NoDup as (Hh & Ho & Ha).
  exact (expandHDInsightsMetastore_lookup
           SampleBag.expandHive SampleBag.expandOozie SampleBag.expandAmbari
           [("hive", VList [VString "h"]); ("oozie", VList [VString "o"])] []
           SampleBag.metastoreConfig "shared" Hh Ho Ha eq_refl).
Defined.

Lemma expandHDInsightRoles_error_is_a_node_error_witness :
  (@None (list string) = None
   <-> Some (Errorf_v "expanding `worker_node`: %+v" "no block for workernode") <> None)
  /\ (forall wrapped,
        Some (Errorf_v "expanding `worker_node`: %+v" "no block for workernode")
          = Some wrapped ->
        exists format name raw def x err,
          SampleBag.expandNode name raw def = (x, Some err)
          /\ wrapped = Errorf_v format err
          /\ In (name, format)
                [("headnode", "expanding `head_node`: %+v");
                 ("workernode", "expanding `worker_node`: %+v");
                 ("zookeepernode", "expanding `zookeeper_node`: %+v");
                 ("edgenode", "expanding `edge_node`: %+v");
                 ("kafkamanagementnode", "expanding `kafka_management_node`: %+v")]).
Proof.
  exact (expandHDInsightRoles_error_is_a_node_error _ _ _ SampleBag.expandNode
           SampleBag.noWorkerRoles SampleBag.hadoop None
           (Some (Errorf_v "expanding `worker_node`: %+v" "no block for workernode"))
           eq_refl).
Defined.

Lemma expandHDInsightRoles_roles_in_order_witness :
  exists v rest hr wr zr h w z tail,
    SampleBag.hadoopRoles = VMap v :: rest
    /\ index v "head_node" = VList hr
    /\ index v "worker_node" = VList wr
    /\ index v "zookeeper_node" = VList zr
    /\ SampleBag.expandNode "headnode" hr "head" = (Some h, None)
    /\ SampleBag.expandNode "workernode" wr "worker" = (Some w, None)
    /\ SampleBag.expandNode "zookeepernode" zr "zookeeper" = (Some z, None)
    /\ ["headnode/head"; "workernode/worker"; "zookeepernode/zookeeper"; "edgenode/edge"]
       = h :: w :: z :: tail
    /\ (1 <= length tail)%nat
    /\ (length tail <= 1 + 0)%nat.
Proof.
  exact (expandHDInsightRoles_roles_in_order _ _ _ SampleBag.expandNode
           SampleBag.hadoopRoles SampleBag.hadoop
           ["headnode/head"; "workernode/worker"; "zookeepernode/zookeeper"; "edgenode/edge"]
           eq_refl).
Defined.

Lemma expandHDInsightRoles_empty_kafka_block_witness :
  expandHDInsightRoles SampleBag.expandNode SampleBag.kafkaRoles SampleBag.kafka
    = expandHDInsightRoles SampleBag.expandNode SampleBag.kafkaRoles
        {| HeadNodeDef := "head"; WorkerNodeDef := "worker"; ZookeeperNodeDef := "zookeeper";
           KafkaManagementNodeDef := None; EdgeNodeDef := None |}.
Proof.
  exact (expandHDInsightRoles_empty_kafka_block _ _ _ SampleBag.expandNode
           [("head_node", SampleBag.node); ("worker_node", SampleBag.node);
            ("zookeeper_node", SampleBag.node); ("kafka_management_node", VList [])]
           [] SampleBag.kafka eq_refl).
Defined.

Lemma expandHDInsightRoles_panics_only_if_ill_typed_witness :
  SampleBag.kafkaRoles = []
  \/ (exists x rest, SampleBag.kafkaRoles = x :: rest /\ forall v, x <> VMap v)
  \/ (exists v rest, SampleBag.kafkaRoles = VMap v :: rest
        /\ (holdsList v "head_node" = false
            \/ holdsList v "worker_node" = false
            \/ holdsList v "zookeeper_node" = false
            \/ (EdgeNodeDef SampleBag.hadoop <> None /\ holdsList v "edge_node" = false)
            \/ (KafkaManagementNodeDef SampleBag.hadoop <> None
                /\ holdsList v "kafka_management_node" = false))).
Proof.
  exact (expandHDInsightRoles_panics_only_if_ill_typed _ _ _ SampleBag.expandNode
           SampleBag.kafkaRoles SampleBag.hadoop expandNode_total eq_refl).
Defined.

Lemma flattenHDInsightRoles_block_witness :
  exists result,
    SampleBag.flattened = [VMap result]
    /\ holdsList result "head_node" = true
    /\ holdsList result "worker_node" = true
    /\ holdsList result "zookeeper_node" = true
    /\ holdsList result "edge_node" = true
    /\ holdsList result "kafka_management_node" = false.
Proof.
  exact (flattenHDInsightRoles_block _ _ _ SampleBag.findRole SampleBag.flattenNode
           SampleBag.getAttribute SampleBag.stored (Some SampleBag.profile)
           SampleBag.hadoop SampleBag.flattened eq_refl).
Defined.

Lemma expandHDInsightRoles_reads_what_flatten_writes_witness :
  exists res,
    expandHDInsightRoles SampleBag.expandNode SampleBag.flattened SampleBag.hadoop
      = Return res.
Proof.
  exact (expandHDInsightRoles_reads_what_flatten_writes _ _ _ _
           SampleBag.expandNode SampleBag.findRole SampleBag.flattenNode
           SampleBag.getAttribute SampleBag.stored ["headnode"; "edgenode"]
           SampleBag.hadoop SampleBag.flattened expandNode_total eq_refl).
Defined.
